(** * StackBot: the notification cursor, rate-limit and dedup state machine

    A shallow embedding of [src/main.py]: the state document and its
    store ([load_state], [save_state]), the retention pruner
    ([prune_state]) and one iteration of the [while True] loop of [main]
    ([cycle]), followed by the properties of the specification.

    Conventions of the embedding.
    - Python dicts keyed by strings are [gmap string _].
    - [time.time()] returns a float; timestamps are idealised as exact
      rationals ([Q]), so rounding of float subtraction is not modelled.
    - The remote service, the clock and the file system are explicit: the
      answers of the service and of the clock are given by an [env],
      indexed by the number of calls made so far; files are a map from
      path to content.
    - An uncaught exception ends the process: [Crashed]. *)

From Stdlib Require Import ZArith QArith Lqa Lia.
From Stdlib Require Import String Ascii List.
From Stdlib Require Import DecimalString DecimalPos DecimalZ.
From Stdlib Require Import Sorted Permutation.
From stdpp Require Import gmap strings list fin_maps sorting.

Close Scope Q_scope.
Local Open Scope string_scope.
Local Open Scope list_scope.
Local Open Scope Z_scope.

(** ** Python values used as identifiers *)

(** The [id] of a notification or of a status, as the client library
    hands it over: an [int] or a [str]. *)
Inductive pyid : Type :=
  | IdInt (n : Z)
  | IdStr (s : string).

(** [str(n)] for an [int]. *)
Definition str_of_int (n : Z) : string :=
  NilZero.string_of_int (Z.to_int n).

(** [int(s)] for a [str]: an optional sign followed by decimal digits;
    [None] stands for [ValueError]. Surrounding blanks and digit-group
    underscores, which [int] also accepts, are not modelled (read as
    [ValueError]); identifiers of the service carry none. A statement
    about an identifier that [int] rejects does not rely on [None] here:
    it names the strings meant ([not_a_number] below). *)
Definition int_of_str (s : string) : option Z :=
  match s with
  | String "+" s' => option_map (fun d => Z.of_uint d) (NilZero.uint_of_string s')
  | _ => option_map Z.of_int (NilZero.int_of_string s)
  end.

(** [int(x)] *)
Definition py_int (x : pyid) : option Z :=
  match x with
  | IdInt n => Some n
  | IdStr s => int_of_str s
  end.

(** [str(x)] *)
Definition py_str (x : pyid) : string :=
  match x with
  | IdInt n => str_of_int n
  | IdStr s => s
  end.

(** ** Data model *)

(** The state document: the dict built by [load_state] and kept by [main]. *)
Record state : Type := State {
  last_notification_id : option pyid;
  last_boost_per_user : gmap string Q;
  boosted_status_ids : gmap string Q
}.

(** The fresh document of [load_state] (lines 24-28). *)
Definition fresh_state : state :=
  {| last_notification_id := None;
     last_boost_per_user := ∅;
     boosted_status_ids := ∅ |}.

(** [now - ts <= bound], the retention test of both comprehensions. *)
Definition within (now : Q) (bound : Z) (ts : Q) : bool :=
  Qle_bool (now - ts)%Q (inject_Z bound).

(** [prune_state] (lines 40-52). *)
Definition prune_state (st : state) (now : Q) (min_interval : Z) : state :=
  let user_expire := min_interval * 2 in
  let status_expire := 24 * 3600 in
  {| last_notification_id := last_notification_id st;
     last_boost_per_user :=
       filter (fun kv => within now user_expire (snd kv) = true)
              (last_boost_per_user st);
     boosted_status_ids :=
       filter (fun kv => within now status_expire (snd kv) = true)
              (boosted_status_ids st) |}.

(** ** Notifications *)

(** The status a notification refers to: [status["id"]] and
    [status.get("account", {}).get("acct")] ([None] when the account or
    its [acct] is missing). *)
Record status : Type := Status {
  status_id : pyid;
  status_acct : option string
}.

(** A notification: [item["id"]], [item["type"]] and [item.get("status")];
    [None] stands for a missing, null or empty status, the values for
    which [not status] holds. *)
Record notification : Type := Notification {
  notif_id : pyid;
  notif_type : string;
  notif_status : option status
}.

(** ** The outside world *)

Inductive fetch_result : Type :=
  | FetchFault                          (* MastodonNetworkError / MastodonAPIError *)
  | Fetched (l : list notification).

(** What the clock and the service answer; the argument is the number of
    calls of that kind made before. *)
Record env : Type := Env {
  time_time : nat -> Q;                 (* time.time() *)
  notifications : nat -> fetch_result;  (* mastodon.notifications(...) *)
  status_reblog : nat -> bool           (* mastodon.status_reblog(...): true = no fault *)
}.

Record config : Type := Config {
  bot_acct : string;
  min_interval : Z;
  state_file : string;
  startup_skip_existing : bool
}.

(** The process and its surroundings: the dict [state] of [main], the
    files, and the calls made so far. [reblogs] lists the calls of
    [status_reblog] with their outcome, latest first. *)
Record world : Type := World {
  mem : state;
  files : gmap string string;
  ticks : nat;
  fetches : nat;
  reblogs : list (pyid * bool)
}.

Definition set_mem (w : world) (st : state) : world :=
  {| mem := st; files := files w; ticks := ticks w;
     fetches := fetches w; reblogs := reblogs w |}.

Definition set_files (w : world) (fs : gmap string string) : world :=
  {| mem := mem w; files := fs; ticks := ticks w;
     fetches := fetches w; reblogs := reblogs w |}.

Definition tick (w : world) : world :=
  {| mem := mem w; files := files w; ticks := S (ticks w);
     fetches := fetches w; reblogs := reblogs w |}.

Definition fetched (w : world) : world :=
  {| mem := mem w; files := files w; ticks := ticks w;
     fetches := S (fetches w); reblogs := reblogs w |}.

Definition called (w : world) (sid : pyid) (ok : bool) : world :=
  {| mem := mem w; files := files w; ticks := ticks w;
     fetches := fetches w; reblogs := (sid, ok) :: reblogs w |}.

(** [state["last_notification_id"] = x] *)
Definition set_cursor (st : state) (x : pyid) : state :=
  {| last_notification_id := Some x;
     last_boost_per_user := last_boost_per_user st;
     boosted_status_ids := boosted_status_ids st |}.

(** Lines 161-162: both tables get the entry [now]. *)
Definition record_boost (st : state) (acct status_id : string) (now : Q) : state :=
  {| last_notification_id := last_notification_id st;
     last_boost_per_user := <[acct := now]> (last_boost_per_user st);
     boosted_status_ids := <[status_id := now]> (boosted_status_ids st) |}.

Definition Qlt_bool (x y : Q) : bool := negb (Qle_bool y x).

(** ** The body of the [for] loop (lines 129-163) *)

(** Which way an iteration went: the [continue] that ended it, or [Act]
    when [status_reblog] was called. *)
Inductive decision : Type :=
  | SkipType               (* line 131 *)
  | SkipNoReferencedItem   (* line 134, and [not acct] of line 137 *)
  | SkipSelf               (* [acct == bot_acct] of line 137 *)
  | SkipRateLimited        (* line 148 *)
  | SkipDuplicate          (* line 153 *)
  | Act.                   (* line 156 reached *)

Section Loop.

Variable e : env.
Variable cfg : config.

Definition process_item (w : world) (item : notification) : world * decision :=
  let w := set_mem w (set_cursor (mem w) (notif_id item)) in
  if negb (String.eqb (notif_type item) "mention") then (w, SkipType) else
  match notif_status item with
  | None => (w, SkipNoReferencedItem)
  | Some status =>
    match status_acct status with
    | None | Some EmptyString => (w, SkipNoReferencedItem)
    | Some acct =>
      if String.eqb acct (bot_acct cfg) then (w, SkipSelf) else
      let now := time_time e (ticks w) in
      let w := tick w in
      let last_boost := default 0%Q (last_boost_per_user (mem w) !! acct) in
      if Qlt_bool (now - last_boost)%Q (inject_Z (min_interval cfg))
      then (w, SkipRateLimited) else
      let sid := py_str (status_id status) in
      match boosted_status_ids (mem w) !! sid with
      | Some _ => (w, SkipDuplicate)
      | None =>
        let ok := status_reblog e (length (reblogs w)) in
        let w := called w (status_id status) ok in
        if ok then (set_mem w (record_boost (mem w) acct sid now), Act)
        else (w, Act)
      end
    end
  end.

(** The [for] loop over the sorted batch. *)
Fixpoint process_items (w : world) (items : list notification) : world :=
  match items with
  | [] => w
  | item :: rest => process_items (fst (process_item w item)) rest
  end.

End Loop.

(** ** [sorted(notifications, key=lambda n: int(n["id"]))] *)

(** The keys, [None] when one [int(...)] raises [ValueError]. *)
Definition ids_of (l : list notification) : option (list Z) :=
  mapM (fun n => py_int (notif_id n)) l.

(** Insertion that keeps an element before those of equal key already
    there: folding it from the right is a stable sort, as [sorted] is. *)
Fixpoint insert_by_key (x : Z * notification) (l : list (Z * notification))
  : list (Z * notification) :=
  match l with
  | [] => [x]
  | y :: l' => if (fst x <=? fst y)%Z then x :: y :: l' else y :: insert_by_key x l'
  end.

Definition sort_by_key (l : list (Z * notification)) : list (Z * notification) :=
  foldr insert_by_key [] l.

Definition sorted_by_id (l : list notification) : option (list notification) :=
  option_map (fun ks => map snd (sort_by_key (zip ks l))) (ids_of l).

(** [max(int(item["id"]) for item in notifications)], on a non-empty list. *)
Definition max_id (l : list notification) : option Z :=
  match ids_of l with
  | Some (k :: ks) => Some (foldl Z.max k ks)
  | _ => None
  end.

(** ** The state store and the poll loop *)

Inductive exn : Type :=
  | ValueError          (* int(...) of a non-numeric identifier *)
  | MastodonError       (* MastodonNetworkError / MastodonAPIError, uncaught *)
  | JSONDecodeError.    (* json.load of a file that is not JSON *)

Inductive result (A : Type) : Type :=
  | Ok (a : A)
  | Raise (x : exn).
Arguments Ok {A} a.
Arguments Raise {A} x.

(** How far a call of [save_state] got before the process died. *)
Inductive save_point : Type :=
  | Entered               (* nothing done yet *)
  | Writing (n : nat)     (* line 35 done: the temporary file is open and holds
                             the first [n] characters of the text *)
  | Written               (* line 36 done and the file closed, not yet renamed *)
  | Replaced.             (* line 37 done: the call returned *)

(** One iteration of [while True] ends in [time.sleep], or the process
    dies of an uncaught exception. *)
Inductive cycle_result : Type :=
  | Slept (w : world)
  | Crashed (x : exn) (w : world).

Section Main.

(** [json.dump] and [json.load] of the standard library: the text written
    for a state document, and the document read from a text ([None]:
    [json.load] raises). [main] uses whatever [json.load] returns as a
    state document; a text that parses is taken to hold one. *)
Variable json_dump : state -> string.
Variable json_load : string -> option state.

Variable e : env.
Variable cfg : config.

(** [path.with_suffix(path.suffix + ".tmp")]: the name with [".tmp"]
    appended. *)
Definition tmp_path (path : string) : string := (path ++ ".tmp")%string.

(** [load_state] (lines 22-30). *)
Definition load_state (fs : gmap string string) (path : string) : result state :=
  match fs !! path with
  | None => Ok fresh_state
  | Some text =>
    match json_load text with
    | Some st => Ok st
    | None => Raise JSONDecodeError
    end
  end.

(** [save_state] (lines 33-37), as far as [p]. *)
Definition save_state_upto (p : save_point) (fs : gmap string string)
    (path : string) (st : state) : gmap string string :=
  let tmp := tmp_path path in
  let text := json_dump st in
  match p with
  | Entered => fs
  | Writing n => <[tmp := substring 0 n text]> fs
  | Written => <[tmp := text]> fs
  | Replaced => <[path := text]> (delete tmp (<[tmp := text]> fs))
  end.

Definition save_state (fs : gmap string string) (path : string) (st : state)
  : gmap string string :=
  save_state_upto Replaced fs path st.

Definition save (w : world) : world :=
  set_files w (save_state (files w) (state_file cfg) (mem w)).

(** Lines 97-98: read the clock, prune. *)
Definition prune_step (w : world) : world :=
  let now := time_time e (ticks w) in
  let w := tick w in
  set_mem w (prune_state (mem w) now (min_interval cfg)).

(** One iteration of the loop of [main] (lines 97-167). *)
Definition cycle (w : world) : cycle_result :=
  let w := prune_step w in
  let answer := notifications e (fetches w) in
  match last_notification_id (mem w), startup_skip_existing cfg with
  | None, true =>
    (* lines 100-111 *)
    let w := fetched w in
    match answer with
    | FetchFault => Crashed MastodonError w
    | Fetched [] => Slept w
    | Fetched l =>
      match max_id l with
      | None => Crashed ValueError w
      | Some m =>
        Slept (save (set_mem w (set_cursor (mem w) (IdStr (str_of_int m)))))
      end
    end
  | _, _ =>
    (* lines 113-167 *)
    let w := fetched w in
    match answer with
    | FetchFault => Slept w
    | Fetched [] => Slept w
    | Fetched l =>
      match sorted_by_id l with
      | None => Crashed ValueError w
      | Some items => Slept (save (process_items e cfg w items))
      end
    end
  end.

(** [k] iterations, unless the process dies before. *)
Fixpoint run (k : nat) (w : world) : cycle_result :=
  match k with
  | O => Slept w
  | S k' =>
    match cycle w with
    | Slept w' => run k' w'
    | Crashed x w' => Crashed x w'
    end
  end.

(** What becomes of a start of [main] (lines 56-94). *)
Inductive startup : Type :=
  | Exit (code : Z)           (* [return 2] *)
  | Died (x : exn)            (* uncaught exception *)
  | Looping (w : world).      (* the loop is entered *)

(** The start of [main]: [base_url] and [access_token] are the two
    required settings ([None] or the empty string: missing), the other settings are
    in [cfg] as parsed; [verified] is the outcome of
    [account_verify_credentials]; then the state is loaded. *)
Definition main_start (base_url access_token : option string)
    (verified : bool) (fs : gmap string string) : startup :=
  match base_url, access_token with
  | Some (String _ _), Some (String _ _) =>
    if verified then
      match load_state fs (state_file cfg) with
      | Ok st => Looping {| mem := st; files := fs; ticks := O;
                            fetches := O; reblogs := [] |}
      | Raise x => Died x
      end
    else Died MastodonError
  | _, _ => Exit 2
  end.

End Main.

(** * Settings and logging: the rest of [main.py]

    The string functions below follow Python on strings of ASCII
    characters; a character from 128 on is left alone and never counts
    as a blank. The properties about them are stated for ASCII values. *)

(** [c.isspace()], for an ASCII character. *)
Definition is_space (c : ascii) : bool :=
  let n := nat_of_ascii c in
  ((9 <=? n)%nat && (n <=? 13)%nat) || ((28 <=? n)%nat && (n <=? 32)%nat).

(** The blanks that [int] skips around a numeral: fewer than
    [isspace] has. *)
Definition is_int_space (c : ascii) : bool :=
  let n := nat_of_ascii c in
  ((9 <=? n)%nat && (n <=? 13)%nat) || (n =? 32)%nat.

(** [c.lower()], for an ASCII character. *)
Definition lower_char (c : ascii) : ascii :=
  let n := nat_of_ascii c in
  if (65 <=? n)%nat && (n <=? 90)%nat then ascii_of_nat (n + 32) else c.

(** [c.upper()], for an ASCII character. *)
Definition upper_char (c : ascii) : ascii :=
  let n := nat_of_ascii c in
  if (97 <=? n)%nat && (n <=? 122)%nat then ascii_of_nat (n - 32) else c.

(** [s.lower()], for a string of ASCII characters. *)
Fixpoint lower (s : string) : string :=
  match s with
  | EmptyString => EmptyString
  | String c s' => String (lower_char c) (lower s')
  end.

(** [s.upper()], for a string of ASCII characters. *)
Fixpoint upper (s : string) : string :=
  match s with
  | EmptyString => EmptyString
  | String c s' => String (upper_char c) (upper s')
  end.

(** The string without the blanks at its left end, for the blanks [p]. *)
Fixpoint lstrip_by (p : ascii -> bool) (s : string) : string :=
  match s with
  | EmptyString => EmptyString
  | String c s' => if p c then lstrip_by p s' else s
  end.

(** The string without the blanks at its right end. *)
Fixpoint rstrip_by (p : ascii -> bool) (s : string) : string :=
  match s with
  | EmptyString => EmptyString
  | String c s' =>
    match rstrip_by p s' with
    | EmptyString => if p c then EmptyString else String c EmptyString
    | r => String c r
    end
  end.

(** [s.strip()] *)
Definition strip (s : string) : string :=
  rstrip_by is_space (lstrip_by is_space s).

(** [parse_bool] (lines 16-19). *)
Definition parse_bool (value : option string) (default : bool) : bool :=
  match value with
  | None => default
  | Some value =>
    existsb (String.eqb (lower (strip value))) ["1"; "true"; "yes"; "on"]
  end.

(** The digits of a numeral with its grouping underscores taken out;
    [None] when an underscore is not between two characters. *)
Fixpoint ungroup (s : string) : option string :=
  match s with
  | EmptyString => Some EmptyString
  | String c s' =>
    if Ascii.eqb c "_" then None
    else match s' with
         | String c' s'' =>
           if Ascii.eqb c' "_" then
             match s'' with
             | EmptyString => None
             | _ => option_map (String c) (ungroup s'')
             end
           else option_map (String c) (ungroup s')
         | EmptyString => Some (String c EmptyString)
         end
  end.

(** A non-empty run of decimal digits, possibly grouped, as a number.
    [max_str_digits] is the interpreter's limit on the number of digits
    ([sys.get_int_max_str_digits()]: 4300 unless set otherwise, 0 for
    none); it is looked at for more than 640 digits only. *)
Definition digits_of_text (max_str_digits : nat) (s : string) : option Z :=
  match ungroup s with
  | Some d =>
    if (640 <? String.length d)%nat && (0 <? max_str_digits)%nat
       && (max_str_digits <? String.length d)%nat
    then None
    else option_map (fun u => Z.of_uint u) (NilZero.uint_of_string d)
  | None => None
  end.

(** [int(s)] for a setting: blanks around, an optional sign, digits that
    may be grouped by single underscores; [None] stands for
    [ValueError]. *)
Definition int_of_text (max_str_digits : nat) (s : string) : option Z :=
  match rstrip_by is_int_space (lstrip_by is_int_space s) with
  | String c r =>
    if Ascii.eqb c "-" then option_map Z.opp (digits_of_text max_str_digits r)
    else if Ascii.eqb c "+" then digits_of_text max_str_digits r
    else digits_of_text max_str_digits (String c r)
  | EmptyString => None
  end.

(** [os.getenv(key, default)] *)
Definition getenv (environ : gmap string string) (key default : string) : string :=
  match environ !! key with
  | Some v => v
  | None => default
  end.

Module Settings.
(** The local variables of [main] that hold the settings (lines 58-67). *)
Record t : Type := Make {
  base_url : option string;
  access_token : option string;
  poll_interval : Z;
  min_interval : Z;
  state_file : string;
  log_file : string;
  log_level : string;
  startup_skip_existing : bool
}.
End Settings.

(** Lines 58-67: the settings are read in this order; an interval that
    is not a number raises [ValueError] there and then. [environ] is the
    environment after [load_dotenv()]; the state file is kept as the
    string given, not normalised as [Path] does. *)
Definition read_settings (max_str_digits : nat)
    (environ : gmap string string) : result Settings.t :=
  let base_url := environ !! "MASTODON_BASE_URL" in
  let access_token := environ !! "ACCESS_TOKEN" in
  match int_of_text max_str_digits
          (getenv environ "POLL_INTERVAL_SECONDS" "30") with
  | None => Raise ValueError
  | Some poll_interval =>
    match int_of_text max_str_digits
            (getenv environ "MIN_BOOST_INTERVAL_SECONDS" "3600") with
    | None => Raise ValueError
    | Some min_interval =>
      Ok {| Settings.base_url := base_url;
            Settings.access_token := access_token;
            Settings.poll_interval := poll_interval;
            Settings.min_interval := min_interval;
            Settings.state_file := getenv environ "STATE_FILE" "state.json";
            Settings.log_file := getenv environ "LOG_FILE" "bot.log";
            Settings.log_level := upper (getenv environ "LOG_LEVEL" "INFO");
            Settings.startup_skip_existing :=
              parse_bool (Some (getenv environ "STARTUP_SKIP_EXISTING" "true"))
                         true |}
    end
  end.

(** The numeric value of a level name, as [logger.setLevel] looks it up;
    [None] stands for [ValueError]. *)
Definition level_of_name (name : string) : option Z :=
  if existsb (String.eqb name) ["CRITICAL"; "FATAL"] then Some 50
  else if String.eqb name "ERROR" then Some 40
  else if existsb (String.eqb name) ["WARN"; "WARNING"] then Some 30
  else if String.eqb name "INFO" then Some 20
  else if String.eqb name "DEBUG" then Some 10
  else if String.eqb name "NOTSET" then Some 0
  else None.

(** [not x] for a setting that may be unset. *)
Definition missing (x : option string) : bool :=
  match x with
  | Some (String _ _) => false
  | _ => true
  end.

(** [main] up to the loop (lines 56-94): the settings, the check of the
    two required ones, the log level, the credentials ([verified]: the
    [acct] that [account_verify_credentials] reports, [None] when the
    call fails), the state. Opening the log file is not modelled. *)
Definition main (json_load : string -> option state)
    (max_str_digits : nat)
    (environ : gmap string string) (verified : option string)
    (fs : gmap string string) : startup :=
  match read_settings max_str_digits environ with
  | Raise x => Died x
  | Ok s =>
    if missing (Settings.base_url s) || missing (Settings.access_token s)
    then Exit 2
    else
      match level_of_name (Settings.log_level s) with
      | None => Died ValueError
      | Some _ =>
        let cfg := {| bot_acct := default EmptyString verified;
                      min_interval := Settings.min_interval s;
                      state_file := Settings.state_file s;
                      startup_skip_existing :=
                        Settings.startup_skip_existing s |} in
        main_start json_load cfg (Settings.base_url s)
          (Settings.access_token s)
          (match verified with Some _ => true | None => false end) fs
      end
  end.

(** ** Log records *)

(** A log record: its level and the text of [getMessage()]. *)
Record log_record : Type := LogRecord {
  levelno : Z;
  getMessage : string
}.

Definition INFO : Z := 20.
Definition WARNING : Z := 30.

Module BoostOnlyFilter.
(** [BoostOnlyFilter.filter] (lines 12-13). *)
Definition filter (record : log_record) : bool :=
  String.prefix "Boosted " (getMessage record).
End BoostOnlyFilter.

(** [int(x)] for a float: the fraction is cut off, towards zero. *)
Definition int_of_float (x : Q) : Z := Z.quot (Qnum x) (Zpos (Qden x)).

(** [str(x)] for a cursor that may be [None]. *)
Definition str_of_cursor (c : option pyid) : string :=
  match c with
  | Some x => py_str x
  | None => "None"
  end.

Section Logging.

Variable e : env.
Variable cfg : config.

(** [str(exc)] for the fault of a call of [status_reblog], by the number
    of calls made before, and for the fault of a fetch. *)
Variable reblog_error : nat -> string.
Variable fetch_error : nat -> string.

(** What one iteration of the [for] loop logs (lines 143-147, 152, 158,
    163), by the way it went. *)
Definition process_item_log (w : world) (item : notification) : list log_record :=
  match notif_status item, snd (process_item e cfg w item) with
  | Some status, SkipRateLimited =>
    let acct := default EmptyString (status_acct status) in
    let now := time_time e (ticks w) in
    let last_boost := default 0%Q (last_boost_per_user (mem w) !! acct) in
    [ {| levelno := INFO;
         getMessage := "Skipping " ++ acct ++ "; boosted "
                       ++ str_of_int (int_of_float (now - last_boost))
                       ++ " seconds ago" |} ]%string
  | Some status, SkipDuplicate =>
    [ {| levelno := INFO;
         getMessage := "Skipping " ++ py_str (status_id status)
                       ++ "; already boosted" |} ]%string
  | Some status, Act =>
    let acct := default EmptyString (status_acct status) in
    let calls := length (reblogs w) in
    if status_reblog e calls
    then [ {| levelno := INFO;
              getMessage := "Boosted " ++ py_str (status_id status)
                            ++ " from " ++ acct |} ]%string
    else [ {| levelno := WARNING;
              getMessage := "Boost failed for " ++ py_str (status_id status)
                            ++ ": " ++ reblog_error calls |} ]%string
  | _, _ => []
  end.

Fixpoint process_items_log (w : world) (items : list notification)
  : list log_record :=
  match items with
  | [] => []
  | item :: rest =>
    process_item_log w item
    ++ process_items_log (fst (process_item e cfg w item)) rest
  end.

(** What one iteration of [while True] logs (lines 106-109, 118,
    122-126 and the loop body), in order. *)
Definition cycle_log (w : world) : list log_record :=
  let w1 := fetched (prune_step e cfg w) in
  let answer := notifications e (fetches w) in
  match last_notification_id (mem w1), startup_skip_existing cfg with
  | None, true =>
    match answer with
    | Fetched (n :: l) =>
      match max_id (n :: l) with
      | Some m =>
        [ {| levelno := INFO;
             getMessage :=
               "Startup skip enabled, setting last_notification_id="
               ++ str_of_int m |} ]%string
      | None => []
      end
    | _ => []
    end
  | cursor, _ =>
    match answer with
    | FetchFault =>
      [ {| levelno := WARNING;
           getMessage := "Notification fetch failed: "
                         ++ fetch_error (fetches w) |} ]%string
    | Fetched l =>
      {| levelno := INFO;
         getMessage := ("Fetched " ++ str_of_int (Z.of_nat (length l))
                        ++ " notifications since_id=" ++ str_of_cursor cursor)%string |}
      :: match sorted_by_id l with
         | Some items => process_items_log w1 items
         | None => []
         end
    end
  end.

End Logging.

(** The root logger lets a record through when its level is at least the
    logger's ([logger.setLevel(log_level)]). *)
Definition enabled (log_level : Z) (r : log_record) : bool :=
  (log_level <=? levelno r)%Z.

(** What the file handler writes (lines 79-83): level [INFO] or above,
    and accepted by the filter. *)
Definition file_log (log_level : Z) (records : list log_record) : list log_record :=
  List.filter (fun r => enabled log_level r && (INFO <=? levelno r)%Z
                        && BoostOnlyFilter.filter r) records.

(** * Notions used in the statements *)

(** The world a cycle ends in. *)
Definition outcome_world (r : cycle_result) : world :=
  match r with
  | Slept w => w
  | Crashed _ w => w
  end.

(** The cycle takes the startup path (lines 100-111). *)
Definition startup_path (cfg : config) (w : world) : Prop :=
  last_notification_id (mem w) = None /\ startup_skip_existing cfg = true.

(** The cycle takes the path of lines 113-167. *)
Definition batch_path (cfg : config) (w : world) : Prop :=
  last_notification_id (mem w) <> None \/ startup_skip_existing cfg = false.

(** An entry stamped [ts] is older than [horizon] seconds at [now]. *)
Definition older_than (now : Q) (horizon : Z) (ts : Q) : Prop :=
  (ts < now - inject_Z horizon)%Q.

#[global] Instance older_than_dec now horizon ts :
  Decision (older_than now horizon ts) :=
  match Qlt_le_dec ts (now - inject_Z horizon) with
  | left H => left H
  | right H => right (Qle_not_lt _ _ H)
  end.

(** Nothing in the two tables is old enough to be pruned. *)
Definition nothing_expired (st : state) (now : Q) (mi : Z) : Prop :=
  (forall acct ts, last_boost_per_user st !! acct = Some ts ->
     ~ older_than now (2 * mi) ts) /\
  (forall sid ts, boosted_status_ids st !! sid = Some ts ->
     ~ older_than now 86400 ts).

(** The originating actor of the referenced item, when there is one. *)
Definition actor_of (item : notification) : option string :=
  match notif_status item with
  | Some s =>
    match status_acct s with
    | Some (String c a) => Some (String c a)
    | _ => None
    end
  | None => None
  end.

(** The first check of an ordered list that fails gives the reason;
    [Act] when all pass. *)
Fixpoint first_failing (checks : list (bool * decision)) : decision :=
  match checks with
  | [] => Act
  | (passes, reason) :: rest => if passes then first_failing rest else reason
  end.

(** The policy in the words of the specification (4.4): five checks in a
    fixed order. *)
Definition should_act (event : notification) (doc : state)
    (self_identity : string) (now : Q) (min_interval : Z) : decision :=
  let actor := default EmptyString (actor_of event) in
  let item := default EmptyString (py_str <$> (status_id <$> notif_status event)) in
  first_failing
    [ (String.eqb (notif_type event) "mention", SkipType);
      (bool_decide (is_Some (actor_of event)), SkipNoReferencedItem);
      (negb (String.eqb actor self_identity), SkipSelf);
      (Qle_bool (inject_Z min_interval)
                (now - default 0%Q (last_boost_per_user doc !! actor))%Q,
       SkipRateLimited);
      (bool_decide (boosted_status_ids doc !! item = None), SkipDuplicate) ].

(** The checks up to the third consult neither the clock nor a table. *)
Definition structural (d : decision) : bool :=
  match d with
  | SkipType | SkipNoReferencedItem | SkipSelf => true
  | _ => false
  end.

(** The event passes the three structural checks: it is a mention of a
    status whose author [acct] is known and is not the bot. *)
Definition reaches_rate_limit (cfg : config) (item : notification)
    (acct : string) : Prop :=
  notif_type item = "mention" /\
  (exists s, notif_status item = Some s /\ status_acct s = Some acct) /\
  acct <> EmptyString /\ acct <> bot_acct cfg.

(** [status_reblog] was called for a status whose identifier prints as
    [key], and returned without a fault. *)
Definition reblog_succeeded (w : world) (key : string) : Prop :=
  exists sid, (sid, true) ∈ reblogs w /\ py_str sid = key.

(** Every key of [boosted_status_ids] in [w] was there in [w0] already or
    stands for a call that succeeded; calls are only added. *)
Definition boosts_backed (w0 w : world) : Prop :=
  reblogs w0 `suffix_of` reblogs w /\
  forall key, is_Some (boosted_status_ids (mem w) !! key) ->
    is_Some (boosted_status_ids (mem w0) !! key) \/ reblog_succeeded w key.

Definition key_le (a b : Z * notification) : Prop := fst a <= fst b.

(** Each key is the number its notification's identifier reads as. *)
Definition keyed (kl : list (Z * notification)) : Prop :=
  Forall (fun kn => py_int (notif_id (snd kn)) = Some (fst kn)) kl.

(** [a] comes no later than [b] in numeric order of identifier. *)
Definition id_le (a b : notification) : Prop :=
  exists ka kb, py_int (notif_id a) = Some ka /\
                py_int (notif_id b) = Some kb /\ ka <= kb.

(** The cursor read as a number, when it is set and numeric. *)
Definition cursor_num (st : state) : option Z :=
  match last_notification_id st with
  | Some c => py_int c
  | None => None
  end.

(** A cursor that is set (to a number) stays set and does not go down. *)
Definition cursor_le (st st' : state) : Prop :=
  forall a, cursor_num st = Some a ->
    exists b, cursor_num st' = Some b /\ a <= b.

(** What [since_id] asks of the service: every identifier returned is
    above the cursor sent. *)
Definition above_cursor (st : state) (l : list notification) : Prop :=
  forall c n k, cursor_num st = Some c ->
    n ∈ l -> py_int (notif_id n) = Some k -> c < k.

(** [m] is the largest identifier of the batch [l]. *)
Definition is_max_id (l : list notification) (m : Z) : Prop :=
  (exists n, n ∈ l /\ py_int (notif_id n) = Some m) /\
  (forall n k, n ∈ l -> py_int (notif_id n) = Some k -> k <= m).

(** The service honours [since_id] in each of the first [k] cycles. *)
Definition honours_since_id (json_dump : state -> string) (e : env)
    (cfg : config) (k : nat) (w : world) : Prop :=
  forall j wj l, (j < k)%nat -> run json_dump e cfg j w = Slept wj ->
    notifications e (fetches wj) = Fetched l -> above_cursor (mem wj) l.

(** The keys under which the calls of [status_reblog] that succeeded
    are recorded in [boosted_status_ids]. *)
Definition boosted_keys (calls : list (pyid * bool)) : list string :=
  map (fun c => py_str (fst c)) (filter (fun c => snd c = true) calls).

(** What a restart would find: the state file holds the document [st]
    (or there is no file and [st] is the fresh document), with the cursor
    of the state in memory; the tables in memory are those of [st] less
    what has been pruned since. *)
Definition persisted (json_dump : state -> string) (cfg : config)
    (w : world) : Prop :=
  exists st,
    (files w !! state_file cfg = Some (json_dump st) \/
     files w !! state_file cfg = None /\ st = fresh_state) /\
    last_notification_id st = last_notification_id (mem w) /\
    last_boost_per_user (mem w) ⊆ last_boost_per_user st /\
    boosted_status_ids (mem w) ⊆ boosted_status_ids st.

(** [f] applied to each character. *)
Fixpoint map_chars (f : ascii -> ascii) (s : string) : string :=
  match s with
  | EmptyString => EmptyString
  | String c s' => String (f c) (map_chars f s')
  end.

(** A string of blanks only, for the blanks [p]. *)
Fixpoint blank_by (p : ascii -> bool) (s : string) : bool :=
  match s with
  | EmptyString => true
  | String c s' => p c && blank_by p s'
  end.

(** A string of whitespace ([isspace]) only. *)
Definition blank (s : string) : bool := blank_by is_space s.

(** A string of ASCII characters. *)
Fixpoint ascii_only (s : string) : bool :=
  match s with
  | EmptyString => true
  | String c s' => (nat_of_ascii c <? 128)%nat && ascii_only s'
  end.

(** An ASCII character that no numeral contains: not a digit, a sign,
    an underscore or a blank that [int] skips. *)
Definition foreign_char (c : ascii) : bool :=
  let n := nat_of_ascii c in
  (n <? 128)%nat
  && negb (((48 <=? n)%nat && (n <=? 57)%nat) || (n =? 43)%nat
           || (n =? 45)%nat || (n =? 95)%nat || is_int_space c).

Fixpoint has_foreign_char (s : string) : bool :=
  match s with
  | EmptyString => false
  | String c s' => foreign_char c || has_foreign_char s'
  end.

(** An identifier that [int] is sure to reject: a string that is empty
    or has a character foreign to numerals. *)
Definition not_a_number (x : pyid) : Prop :=
  exists s, x = IdStr s /\ (s = EmptyString \/ has_foreign_char s = true).

(** The line of the log for a boost of the status [key] of [acct]. *)
Definition boosted_line (key acct : string) : log_record :=
  {| levelno := INFO;
     getMessage := ("Boosted " ++ key ++ " from " ++ acct)%string |}.

(** A record that the filter accepts is of level [INFO]. *)
Definition info_if_accepted (r : log_record) : Prop :=
  BoostOnlyFilter.filter r = true -> levelno r = INFO.

(** * Sample inputs *)

Definition mention (nid : pyid) (sid : pyid) (acct : string) : notification :=
  {| notif_id := nid; notif_type := "mention";
     notif_status := Some {| status_id := sid; status_acct := Some acct |} |}.

Definition sample_cfg (mi : Z) (skip : bool) : config :=
  {| bot_acct := "bot"; min_interval := mi;
     state_file := "state.json"; startup_skip_existing := skip |}.

(** A clock that always shows [now], a service that always gives the
    same answers. *)
Definition steady (now : Q) (answer : fetch_result) (ok : bool) : env :=
  {| time_time := fun _ => now;
     notifications := fun _ => answer;
     status_reblog := fun _ => ok |}.

(** A service that gives the listed answers, one per fetch, and then
    nothing new. *)
Definition scripted (now : Q) (answers : list fetch_result) (ok : bool) : env :=
  {| time_time := fun _ => now;
     notifications := fun n => default (Fetched []) (answers !! n);
     status_reblog := fun _ => ok |}.

Definition at_rest (st : state) (fs : gmap string string) : world :=
  {| mem := st; files := fs; ticks := O; fetches := O; reblogs := [] |}.

(** A stand-in for [json.dump] in examples: it writes the cursor only. *)
Definition sample_dump (st : state) : string :=
  match last_notification_id st with
  | Some c => py_str c
  | None => "null"
  end.

(** A stand-in for [json.load] in examples, reading what [sample_dump]
    writes; the empty text is not a document. *)
Definition sample_load (text : string) : option state :=
  if String.eqb text EmptyString then None
  else if String.eqb text "null" then Some fresh_state
  else Some (set_cursor fresh_state (IdStr text)).

(** * Properties *)

#[local] Arguments String.eqb : simpl never.
#[local] Arguments Qle_bool : simpl never.
#[local] Arguments Qlt_bool : simpl never.

(** ** First checks on sample inputs *)

Example str_42 : str_of_int 42 = "42". Proof. reflexivity. Qed.
Example int_007 : int_of_str "007" = Some 7. Proof. reflexivity. Qed.
Example int_plus : int_of_str "+12" = Some 12. Proof. reflexivity. Qed.
Example int_neg : int_of_str "-12" = Some (-12). Proof. reflexivity. Qed.
Example int_bad : int_of_str "a1" = None. Proof. reflexivity. Qed.
Example int_bad2 : int_of_str "+-1" = None. Proof. reflexivity. Qed.
Example int_bad3 : int_of_str EmptyString = None. Proof. reflexivity. Qed.

Example prune_ex :
  prune_state {| last_notification_id := None;
                 last_boost_per_user := {[ "a" := 10%Q ; "b" := 9000%Q ]};
                 boosted_status_ids := {[ "1" := 10%Q ]} |} 10000%Q 3600
  = {| last_notification_id := None;
       last_boost_per_user := {[ "b" := 9000%Q ]};
       boosted_status_ids := {[ "1" := 10%Q ]} |}.
Proof. vm_compute. reflexivity. Qed.

(** ** The retention pruner *)

Lemma within_true now bound ts :
  within now bound ts = true <-> ~ older_than now bound ts.
Proof.
  unfold within, older_than. rewrite Qle_bool_iff. split; intros H; lra.
Qed.

Lemma filter_within_lookup (m : gmap string Q) now bound k :
  filter (fun kv => within now bound (snd kv) = true) m !! k =
  match m !! k with
  | Some ts => if within now bound ts then Some ts else None
  | None => None
  end.
Proof.
  destruct (m !! k) as [ts|] eqn:Hk.
  - destruct (within now bound ts) eqn:Hw.
    + apply map_lookup_filter_Some. auto.
    + apply map_lookup_filter_None. right. intros x Hx. simpl.
      rewrite Hk in Hx. injection Hx as <-. rewrite Hw. discriminate.
  - apply map_lookup_filter_None. left. exact Hk.
Qed.

(** C6. [prune_state] drops from [last_boost_per_user] exactly the entries
    older than [2 * min_interval] seconds at [now], and from
    [boosted_status_ids] exactly those older than 24 hours (86400 s);
    every other entry stays with its timestamp. In particular an entry of
    [boosted_status_ids] stamped [now - 25h] goes and one stamped
    [now - 23h] stays. *)
Theorem prune_state_exact (st : state) (now : Q) (mi : Z) :
  let st' := prune_state st now mi in
  (forall acct,
     last_boost_per_user st' !! acct =
     match last_boost_per_user st !! acct with
     | Some ts => if decide (older_than now (2 * mi) ts) then None else Some ts
     | None => None
     end) /\
  (forall sid,
     boosted_status_ids st' !! sid =
     match boosted_status_ids st !! sid with
     | Some ts => if decide (older_than now 86400 ts) then None else Some ts
     | None => None
     end) /\
  (forall sid ts, boosted_status_ids st !! sid = Some ts ->
     (ts == now - inject_Z (25 * 3600))%Q ->
     boosted_status_ids st' !! sid = None) /\
  (forall sid ts, boosted_status_ids st !! sid = Some ts ->
     (ts == now - inject_Z (23 * 3600))%Q ->
     boosted_status_ids st' !! sid = Some ts).
Proof.
  assert (Hd : forall b ts (D : Decision (older_than now b ts)),
             (if within now b ts then Some ts else None) =
             (if D then None else Some ts)).
  { intros b ts D. destruct (within now b ts) eqn:Hw, D as [Ho|Ho]; try reflexivity.
    - apply within_true in Hw. contradiction.
    - apply within_true in Ho. congruence. }
  simpl. repeat split.
  - intros acct. rewrite filter_within_lookup.
    destruct (last_boost_per_user st !! acct); [|reflexivity].
    replace (mi * 2) with (2 * mi) by lia. apply Hd.
  - intros sid. rewrite filter_within_lookup.
    destruct (boosted_status_ids st !! sid); [|reflexivity].
    apply Hd.
  - intros sid ts Hk Hts. rewrite filter_within_lookup, Hk.
    destruct (within now (24 * 3600) ts) eqn:Hw; [|reflexivity].
    apply Qle_bool_iff in Hw. rewrite Hts in Hw.
    change (inject_Z (25 * 3600)) with 90000%Q in Hw.
    change (inject_Z (24 * 3600)) with 86400%Q in Hw. lra.
  - intros sid ts Hk Hts. rewrite filter_within_lookup, Hk.
    destruct (within now (24 * 3600) ts) eqn:Hw; [reflexivity|].
    apply not_true_iff_false in Hw. exfalso. apply Hw.
    apply Qle_bool_iff. rewrite Hts.
    change (inject_Z (23 * 3600)) with 82800%Q.
    change (inject_Z (24 * 3600)) with 86400%Q. lra.
Qed.

Lemma prune_state_exact_witness :
  let st := {| last_notification_id := None;
               last_boost_per_user := ∅;
               boosted_status_ids := {[ "old" := 10000%Q; "new" := 17200%Q ]} |} in
  boosted_status_ids (prune_state st 100000%Q 3600) !! "old" = None /\
  boosted_status_ids (prune_state st 100000%Q 3600) !! "new" = Some 17200%Q.
Proof.
  intros st.
  destruct (prune_state_exact st 100000%Q 3600) as (_ & _ & H25 & H23).
  split.
  - apply (H25 "old" 10000%Q); reflexivity.
  - apply (H23 "new" 17200%Q); reflexivity.
Defined.

(** C10. [prune_state] leaves [last_notification_id] as it is: only the
    two tables are rewritten. *)
Theorem prune_state_cursor (st : state) (now : Q) (mi : Z) :
  last_notification_id (prune_state st now mi) = last_notification_id st /\
  prune_state st now mi =
    {| last_notification_id := last_notification_id st;
       last_boost_per_user := last_boost_per_user (prune_state st now mi);
       boosted_status_ids := boosted_status_ids (prune_state st now mi) |}.
Proof. split; reflexivity. Qed.

(** ** The reaction policy *)

Lemma Qlt_bool_iff x y : Qlt_bool x y = true <-> (x < y)%Q.
Proof.
  unfold Qlt_bool. rewrite negb_true_iff, <- not_true_iff_false, Qle_bool_iff.
  split; intros H; lra.
Qed.

Lemma Qlt_bool_Qle_bool x y : Qlt_bool x y = negb (Qle_bool y x).
Proof. reflexivity. Qed.

(** C1. Each event goes through the five checks in the order type,
    referenced item with actor, self, rate limit, duplicate: the loop body
    decides as the first failing check says; the clock is read only once
    the first three have passed, and [status_reblog] is called only when
    all five have. *)
Theorem process_item_order (e : env) (cfg : config) (w : world)
    (item : notification) :
  let w' := fst (process_item e cfg w item) in
  let d := snd (process_item e cfg w item) in
  d = should_act item (mem w) (bot_acct cfg)
        (time_time e (ticks w)) (min_interval cfg) /\
  ticks w' = (if structural d then ticks w else S (ticks w)) /\
  reblogs w' =
    match d, notif_status item with
    | Act, Some s =>
      (status_id s, status_reblog e (length (reblogs w))) :: reblogs w
    | _, _ => reblogs w
    end.
Proof.
  unfold process_item, should_act, actor_of. simpl.
  destruct (String.eqb (notif_type item) "mention"); simpl; [|auto].
  destruct (notif_status item) as [s|]; simpl; [|auto].
  destruct (status_acct s) as [[|c a]|]; simpl; auto.
  destruct (String.eqb (String c a) (bot_acct cfg)); simpl; [auto|].
  rewrite Qlt_bool_Qle_bool.
  destruct (Qle_bool _ _); simpl; [|auto].
  destruct (boosted_status_ids (mem w) !! py_str (status_id s)) eqn:Hb; simpl.
  - auto.
  - destruct (status_reblog e (length (reblogs w))); simpl; auto.
Qed.

Example skip_type_first :
  snd (process_item (steady 0%Q FetchFault true) (sample_cfg 3600 true)
         (at_rest fresh_state ∅)
         {| notif_id := IdInt 1; notif_type := "favourite";
            notif_status := None |}) = SkipType.
Proof. reflexivity. Qed.

Example skip_self_before_rate_limit :
  snd (process_item (steady 10%Q FetchFault true) (sample_cfg 3600 true)
         (at_rest fresh_state ∅) (mention (IdInt 1) (IdInt 7) "bot")) = SkipSelf.
Proof. reflexivity. Qed.

Example act_on_mention :
  process_item (steady 5000%Q FetchFault true) (sample_cfg 3600 true)
    (at_rest fresh_state ∅) (mention (IdStr "8") (IdInt 7) "alice")
  = ({| mem := {| last_notification_id := Some (IdStr "8");
                  last_boost_per_user := {[ "alice" := 5000%Q ]};
                  boosted_status_ids := {[ "7" := 5000%Q ]} |};
        files := ∅; ticks := 1; fetches := 0;
        reblogs := [(IdInt 7, true)] |}, Act).
Proof. vm_compute. reflexivity. Qed.

(** ** The rate-limit check *)

(** C8 (first half as stated; second half amended). An event that reaches
    the rate-limit check is skipped as rate-limited exactly when
    [now - last_boost_per_user.get(acct, 0) < min_interval]. An actor
    without an entry counts as boosted at time 0: it passes exactly when
    [min_interval <= now]. *)
Theorem rate_limit_check (e : env) (cfg : config) (w : world)
    (item : notification) (acct : string) :
  reaches_rate_limit cfg item acct ->
  let now := time_time e (ticks w) in
  let last_boost := default 0%Q (last_boost_per_user (mem w) !! acct) in
  (snd (process_item e cfg w item) = SkipRateLimited <->
   (now - last_boost < inject_Z (min_interval cfg))%Q) /\
  (last_boost_per_user (mem w) !! acct = None ->
   (snd (process_item e cfg w item) <> SkipRateLimited <->
    (inject_Z (min_interval cfg) <= now)%Q)).
Proof.
  intros (Ht & (s & Hs & Ha) & Hne & Hbot) now last_boost.
  assert (Hiff : snd (process_item e cfg w item) = SkipRateLimited <->
                 (now - last_boost < inject_Z (min_interval cfg))%Q).
  { unfold process_item. rewrite Ht, Hs, Ha. simpl.
    destruct acct as [|c a]; [congruence|].
    destruct (String.eqb_spec (String c a) (bot_acct cfg)) as [Heq|_];
      [congruence|].
    fold now. change (default 0%Q _) with last_boost.
    rewrite <- Qlt_bool_iff.
    destruct (Qlt_bool (now - last_boost) (inject_Z (min_interval cfg))).
    - simpl. split; reflexivity.
    - destruct (boosted_status_ids _ !! _); simpl;
        [|destruct (status_reblog _ _); simpl]; split; discriminate. }
  split; [exact Hiff|].
  intros Hnone. rewrite Hiff. subst last_boost. rewrite Hnone. simpl.
  split; intros H; lra.
Qed.

Lemma rate_limit_check_witness :
  snd (process_item (steady 5000%Q FetchFault true) (sample_cfg 3600 true)
         (at_rest fresh_state ∅) (mention (IdInt 1) (IdInt 7) "alice"))
  <> SkipRateLimited.
Proof.
  assert (Hr : reaches_rate_limit (sample_cfg 3600 true)
                 (mention (IdInt 1) (IdInt 7) "alice") "alice").
  { split; [reflexivity|]. split; [eexists; split; reflexivity|].
    split; discriminate. }
  destruct (rate_limit_check (steady 5000%Q FetchFault true)
              (sample_cfg 3600 true) (at_rest fresh_state ∅) _ _ Hr)
    as [_ H].
  apply H; [reflexivity|]. simpl. unfold Qle. simpl. lia.
Defined.

(** C8, as stated, fails: with [min_interval] above the clock's reading
    (here two thousand million seconds against an epoch time of one
    thousand seven hundred million) an actor that has no entry is skipped
    as rate-limited. *)
Lemma unseen_actor_rate_limited :
  let cfg := sample_cfg 2000000000 true in
  let e := steady 1700000000%Q FetchFault true in
  let w := at_rest fresh_state ∅ in
  let item := mention (IdInt 1) (IdInt 7) "alice" in
  reaches_rate_limit cfg item "alice" /\
  last_boost_per_user (mem w) !! "alice" = None /\
  snd (process_item e cfg w item) = SkipRateLimited.
Proof.
  split; [|split; reflexivity].
  split; [reflexivity|]. split; [eexists; split; reflexivity|].
  split; discriminate.
Qed.

(** ** Failed reactions leave no trace in the tables *)

Lemma boosts_backed_refl w : boosts_backed w w.
Proof. split; [reflexivity|]. auto. Qed.

Lemma reblog_succeeded_mono w1 w2 key :
  reblogs w1 `suffix_of` reblogs w2 ->
  reblog_succeeded w1 key -> reblog_succeeded w2 key.
Proof.
  intros [l Hl] (sid & Hin & Hk). exists sid. split; [|exact Hk].
  rewrite Hl. apply elem_of_app. right. exact Hin.
Qed.

Lemma boosts_backed_trans w0 w1 w2 :
  boosts_backed w0 w1 -> boosts_backed w1 w2 -> boosts_backed w0 w2.
Proof.
  intros [S1 H1] [S2 H2]. split; [etransitivity; eassumption|].
  intros key Hk. destruct (H2 key Hk) as [Hk1|Hs]; [|right; exact Hs].
  destruct (H1 key Hk1) as [Hk0|Hs]; [left; exact Hk0|].
  right. eapply reblog_succeeded_mono; eassumption.
Qed.

(** What one iteration of the [for] loop does to the tables and to the
    list of calls, by the way it went. *)
Lemma process_item_tables (e : env) (cfg : config) (w : world)
    (item : notification) :
  let w' := fst (process_item e cfg w item) in
  let ok := status_reblog e (length (reblogs w)) in
  files w' = files w /\
  ((reblogs w' = reblogs w \/
    exists sid, reblogs w' = (sid, false) :: reblogs w) /\
   last_boost_per_user (mem w') = last_boost_per_user (mem w) /\
   boosted_status_ids (mem w') = boosted_status_ids (mem w)
   \/
   exists s acct, notif_status item = Some s /\ status_acct s = Some acct /\
     ok = true /\
     reblogs w' = (status_id s, true) :: reblogs w /\
     last_boost_per_user (mem w') =
       <[acct := time_time e (ticks w)]> (last_boost_per_user (mem w)) /\
     boosted_status_ids (mem w') =
       <[py_str (status_id s) := time_time e (ticks w)]>
         (boosted_status_ids (mem w))).
Proof.
  unfold process_item. simpl.
  destruct (negb _); simpl; [auto|].
  destruct (notif_status item) as [s|]; simpl; [|auto].
  destruct (status_acct s) as [[|c a]|] eqn:Ha; simpl; auto.
  destruct (String.eqb _ _); simpl; [auto|].
  destruct (Qlt_bool _ _); simpl; [auto|].
  destruct (boosted_status_ids (mem w) !! py_str (status_id s)); simpl; [auto|].
  destruct (status_reblog e (length (reblogs w))) eqn:Hok; simpl.
  - split; [reflexivity|]. right. exists s, (String c a). auto 10.
  - split; [reflexivity|]. left. eauto.
Qed.

Lemma process_item_backed e cfg w item :
  boosts_backed w (fst (process_item e cfg w item)).
Proof.
  destruct (process_item_tables e cfg w item)
    as [_ [([Hr|[sid Hr]] & _ & Hb) | (s & acct & _ & _ & _ & Hr & _ & Hb)]].
  - split; [rewrite Hr; reflexivity|]. intros key. rewrite Hb. auto.
  - split; [rewrite Hr; exists [(sid, false)]; reflexivity|].
    intros key. rewrite Hb. auto.
  - split; [rewrite Hr; exists [(status_id s, true)]; reflexivity|].
    intros key. rewrite Hb.
    destruct (decide (py_str (status_id s) = key)) as [<-|Hne].
    + intros _. right. exists (status_id s). split; [|reflexivity].
      rewrite Hr. apply elem_of_cons. left. reflexivity.
    + rewrite lookup_insert_ne by exact Hne. auto.
Qed.

Lemma process_items_backed e cfg items : forall w,
  boosts_backed w (process_items e cfg w items).
Proof.
  induction items as [|item rest IH]; intros w; simpl.
  - apply boosts_backed_refl.
  - eapply boosts_backed_trans; [apply process_item_backed|apply IH].
Qed.

Lemma prune_state_boosted_sub st now mi key :
  is_Some (boosted_status_ids (prune_state st now mi) !! key) ->
  is_Some (boosted_status_ids st !! key).
Proof.
  simpl. rewrite filter_within_lookup.
  destruct (boosted_status_ids st !! key); [eauto|].
  intros [x Hx]. discriminate.
Qed.

Section RunInvariants.

Variable json_dump : state -> string.
Variable e : env.
Variable cfg : config.

Lemma cycle_backed w :
  boosts_backed w (outcome_world (cycle json_dump e cfg w)).
Proof.
  unfold cycle.
  set (w1 := prune_step e cfg w).
  assert (H1 : boosts_backed w w1).
  { split; [reflexivity|]. intros key Hk. left.
    eapply prune_state_boosted_sub. exact Hk. }
  assert (H2 : boosts_backed w (fetched w1)) by exact H1.
  destruct (last_notification_id (mem w1)) as [c|];
    [|destruct (startup_skip_existing cfg)];
    destruct (notifications e (fetches w1)) as [|[|n l]]; simpl; try exact H2.
  - destruct (sorted_by_id (n :: l)) as [items|]; simpl; [|exact H2].
    eapply boosts_backed_trans; [exact H2|].
    apply (process_items_backed e cfg items (fetched w1)).
  - destruct (max_id (n :: l)); simpl; exact H2.
  - destruct (sorted_by_id (n :: l)) as [items|]; simpl; [|exact H2].
    eapply boosts_backed_trans; [exact H2|].
    apply (process_items_backed e cfg items (fetched w1)).
Qed.

Lemma run_backed k : forall w,
  boosts_backed w (outcome_world (run json_dump e cfg k w)).
Proof.
  induction k as [|k IH]; intros w; simpl.
  - apply boosts_backed_refl.
  - pose proof (cycle_backed w) as Hc.
    destruct (cycle json_dump e cfg w) as [w1|x w1]; simpl in *.
    + eapply boosts_backed_trans; [exact Hc|apply IH].
    + exact Hc.
Qed.

End RunInvariants.

(** C3. When [status_reblog] fails for an event, neither
    [last_boost_per_user] nor [boosted_status_ids] changes and the loop
    goes on with the rest of the batch. A table entry appears only together
    with a call that succeeded; so, over any number of cycles, every key of
    [boosted_status_ids] was there at the start or stands for a call of
    [status_reblog] that succeeded, and from an empty table every key
    stands for such a call. *)
Theorem failed_reblog_not_recorded (json_dump : state -> string) (e : env)
    (cfg : config) :
  (forall w item,
     snd (process_item e cfg w item) = Act ->
     status_reblog e (length (reblogs w)) = false ->
     last_boost_per_user (mem (fst (process_item e cfg w item))) =
       last_boost_per_user (mem w) /\
     boosted_status_ids (mem (fst (process_item e cfg w item))) =
       boosted_status_ids (mem w)) /\
  (forall w item rest,
     process_items e cfg w (item :: rest) =
     process_items e cfg (fst (process_item e cfg w item)) rest) /\
  (forall w item key,
     boosted_status_ids (mem (fst (process_item e cfg w item))) !! key <>
       boosted_status_ids (mem w) !! key ->
     exists sid, py_str sid = key /\
       reblogs (fst (process_item e cfg w item)) = (sid, true) :: reblogs w) /\
  (forall k w w' key,
     run json_dump e cfg k w = Slept w' ->
     is_Some (boosted_status_ids (mem w') !! key) ->
     is_Some (boosted_status_ids (mem w) !! key) \/ reblog_succeeded w' key) /\
  (forall k w w' key,
     boosted_status_ids (mem w) = ∅ ->
     run json_dump e cfg k w = Slept w' ->
     is_Some (boosted_status_ids (mem w') !! key) -> reblog_succeeded w' key).
Proof.
  assert (Hrun : forall k w w' key,
     run json_dump e cfg k w = Slept w' ->
     is_Some (boosted_status_ids (mem w') !! key) ->
     is_Some (boosted_status_ids (mem w) !! key) \/ reblog_succeeded w' key).
  { intros k w w' key Hrun Hk.
    pose proof (run_backed json_dump e cfg k w) as [_ Hb].
    rewrite Hrun in Hb. simpl in Hb. apply Hb. exact Hk. }
  split; [|split; [|split; [|split]]].
  - intros w item _ Hfail.
    destruct (process_item_tables e cfg w item)
      as [_ [(_ & Hu & Hb) | (s & acct & _ & _ & Hok & _)]]; [auto|].
    congruence.
  - reflexivity.
  - intros w item key Hne.
    destruct (process_item_tables e cfg w item)
      as [_ [(_ & _ & Hb) | (s & acct & _ & _ & _ & Hr & _ & Hb)]].
    + rewrite Hb in Hne. contradiction.
    + exists (status_id s). split; [|exact Hr].
      destruct (decide (py_str (status_id s) = key)) as [Heq|Hd]; [exact Heq|].
      rewrite Hb, lookup_insert_ne in Hne by exact Hd. contradiction.
  - exact Hrun.
  - intros k w w' key Hempty Hr Hk.
    destruct (Hrun k w w' key Hr Hk) as [[x Hx]|Hs]; [|exact Hs].
    rewrite Hempty, lookup_empty in Hx. discriminate.
Qed.

(** ** The batch is processed in ascending order of identifier *)

Lemma insert_by_key_perm x l : insert_by_key x l ≡ₚ x :: l.
Proof.
  induction l as [|y l IH]; simpl; [reflexivity|].
  destruct (fst x <=? fst y)%Z; [reflexivity|].
  rewrite IH. apply Permutation_swap.
Qed.

Lemma insert_by_key_sorted x l :
  StronglySorted key_le l -> StronglySorted key_le (insert_by_key x l).
Proof.
  induction l as [|y l IH]; simpl; intros Hs.
  - repeat constructor.
  - apply StronglySorted_cons in Hs as [Hy Hl].
    destruct (Z.leb_spec (fst x) (fst y)) as [Hxy|Hxy].
    + constructor; [constructor; assumption|].
      constructor; [exact Hxy|].
      eapply Forall_impl; [exact Hy|].
      intros z Hz. unfold key_le in *. lia.
    + constructor; [apply IH; exact Hl|].
      rewrite insert_by_key_perm. constructor; [|exact Hy].
      unfold key_le. lia.
Qed.

Lemma sort_by_key_perm l : sort_by_key l ≡ₚ l.
Proof.
  induction l as [|x l IH]; simpl; [reflexivity|].
  rewrite insert_by_key_perm, IH. reflexivity.
Qed.

Lemma sort_by_key_sorted l : StronglySorted key_le (sort_by_key l).
Proof.
  induction l as [|x l IH]; simpl; [constructor|].
  apply insert_by_key_sorted, IH.
Qed.

Lemma keyed_zip l ks : ids_of l = Some ks -> keyed (zip ks l) /\ (zip ks l).*2 = l.
Proof.
  unfold ids_of. intros H. apply mapM_Some_1 in H.
  induction H as [|n k l ks Hk _ [IH1 IH2]]; simpl.
  - split; [constructor|reflexivity].
  - split; [constructor; assumption|]. f_equal. exact IH2.
Qed.

Lemma keyed_ids kl : keyed kl -> ids_of (kl.*2) = Some (kl.*1).
Proof.
  intros H. apply mapM_Some_2.
  induction H as [|[k n] kl Hk _ IH]; simpl; constructor; assumption.
Qed.

Lemma key_le_sorted_fst kl :
  StronglySorted key_le kl -> StronglySorted Z.le (kl.*1).
Proof.
  induction 1 as [|a kl _ IH Ha]; simpl; constructor; [exact IH|].
  apply Forall_fmap. exact Ha.
Qed.

Lemma keyed_sorted_snd kl :
  keyed kl -> StronglySorted key_le kl -> StronglySorted id_le (kl.*2).
Proof.
  intros Hk Hs. induction Hs as [|a kl _ IH Ha]; simpl; [constructor|].
  apply Forall_cons in Hk as [Hka Hk].
  constructor; [apply IH; exact Hk|].
  apply Forall_fmap. unfold keyed in Hk.
  rewrite Forall_forall in Ha, Hk. apply Forall_forall. intros b Hb.
  exists (fst a), (fst b). split; [exact Hka|].
  split; [apply Hk; exact Hb|apply Ha; exact Hb].
Qed.

(** [sorted(...)] rearranges the batch into ascending numeric order. *)
Lemma sorted_by_id_spec l items :
  sorted_by_id l = Some items ->
  items ≡ₚ l /\ StronglySorted id_le items /\
  exists ks, ids_of items = Some ks /\ StronglySorted Z.le ks.
Proof.
  unfold sorted_by_id. destruct (ids_of l) as [ks|] eqn:Hids; [|discriminate].
  simpl. intros [= <-].
  destruct (keyed_zip l ks Hids) as [Hk Hz].
  assert (Hk' : keyed (sort_by_key (zip ks l))).
  { unfold keyed. rewrite sort_by_key_perm. exact Hk. }
  split; [|split].
  - rewrite <- Hz at 2. apply fmap_Permutation, sort_by_key_perm.
  - apply keyed_sorted_snd; [exact Hk'|apply sort_by_key_sorted].
  - exists ((sort_by_key (zip ks l)).*1). split.
    + apply keyed_ids. exact Hk'.
    + apply key_le_sorted_fst, sort_by_key_sorted.
Qed.

Lemma sorted_by_id_is_Some l ks :
  ids_of l = Some ks -> is_Some (sorted_by_id l).
Proof. unfold sorted_by_id. intros ->. simpl. eauto. Qed.

Example sorted_5_2_9 :
  sorted_by_id [mention (IdStr "5") (IdInt 1) "a";
                mention (IdInt 2) (IdInt 2) "b";
                mention (IdStr "9") (IdInt 3) "c"]
  = Some [mention (IdInt 2) (IdInt 2) "b";
          mention (IdStr "5") (IdInt 1) "a";
          mention (IdStr "9") (IdInt 3) "c"].
Proof. reflexivity. Qed.

(** Equal keys keep their order of arrival, as with [sorted]. *)
Example sorted_stable :
  sorted_by_id [mention (IdStr "7") (IdInt 1) "a";
                mention (IdInt 7) (IdInt 2) "b";
                mention (IdStr "07") (IdInt 3) "c"]
  = Some [mention (IdStr "7") (IdInt 1) "a";
          mention (IdInt 7) (IdInt 2) "b";
          mention (IdStr "07") (IdInt 3) "c"].
Proof. reflexivity. Qed.

(** ** The cursor *)

Lemma cursor_le_refl st : cursor_le st st.
Proof. intros a Ha. exists a. split; [exact Ha|lia]. Qed.

Create HintDb cursor.
#[local] Hint Resolve cursor_le_refl : cursor.

Lemma cursor_le_trans st1 st2 st3 :
  cursor_le st1 st2 -> cursor_le st2 st3 -> cursor_le st1 st3.
Proof.
  intros H1 H2 a Ha. destruct (H1 a Ha) as (b & Hb & Hab).
  destruct (H2 b Hb) as (c & Hc & Hbc). exists c. split; [exact Hc|lia].
Qed.

Lemma process_item_cursor e cfg w item :
  last_notification_id (mem (fst (process_item e cfg w item))) =
  Some (notif_id item).
Proof.
  unfold process_item.
  destruct (negb _); simpl; [reflexivity|].
  destruct (notif_status item) as [s|]; simpl; [|reflexivity].
  destruct (status_acct s) as [[|c a]|]; simpl; try reflexivity.
  destruct (String.eqb _ _); simpl; [reflexivity|].
  destruct (Qlt_bool _ _); simpl; [reflexivity|].
  destruct (boosted_status_ids (mem w) !! _); simpl; [reflexivity|].
  destruct (status_reblog _ _); reflexivity.
Qed.

Lemma process_items_app e cfg l1 : forall w l2,
  process_items e cfg w (l1 ++ l2) =
  process_items e cfg (process_items e cfg w l1) l2.
Proof. induction l1 as [|x l1 IH]; intros w l2; simpl; [reflexivity|apply IH]. Qed.

Lemma process_items_cursor e cfg items : forall w,
  last_notification_id (mem (process_items e cfg w items)) =
  match last items with
  | Some x => Some (notif_id x)
  | None => last_notification_id (mem w)
  end.
Proof.
  induction items as [|x items IH]; intros w; [reflexivity|].
  simpl process_items. rewrite IH.
  destruct items as [|y items]; [simpl; apply process_item_cursor|].
  rewrite last_cons_cons. destruct (last (y :: items)) eqn:Hl; [reflexivity|].
  apply last_None in Hl. discriminate.
Qed.

(** Each step of the [for] loop over an ascending batch moves the cursor
    up or leaves its value; only the first step needs the batch to lie
    above the cursor it was fetched with. *)
Lemma process_items_step_le e cfg w l1 x l2 :
  StronglySorted id_le (l1 ++ x :: l2) ->
  is_Some (py_int (notif_id x)) ->
  (l1 = [] -> above_cursor (mem w) [x]) ->
  cursor_le (mem (process_items e cfg w l1))
            (mem (fst (process_item e cfg (process_items e cfg w l1) x))).
Proof.
  intros Hs [kx Hkx] Hab a Ha. exists kx.
  unfold cursor_num. rewrite process_item_cursor. split; [exact Hkx|].
  unfold cursor_num in Ha. rewrite process_items_cursor in Ha.
  destruct (last l1) as [y|] eqn:Hl.
  - apply last_Some in Hl as [l1' ->].
    apply StronglySorted_app in Hs as (Hle & _ & _).
    destruct (Hle y x) as (ky & kx' & Hy & Hx & Hyx).
    + apply elem_of_app. right. apply list_elem_of_singleton. reflexivity.
    + apply elem_of_cons. left. reflexivity.
    + simpl in Ha. congruence.
  - apply last_None in Hl as ->. apply Z.lt_le_incl.
    apply (Hab eq_refl a x kx Ha); [|exact Hkx].
    apply list_elem_of_singleton. reflexivity.
Qed.

(** After an ascending non-empty batch the cursor is the largest
    identifier of the batch. *)
Lemma process_items_max e cfg w l items :
  items ≡ₚ l -> StronglySorted id_le items -> l <> [] ->
  Forall (fun n => is_Some (py_int (notif_id n))) l ->
  exists m, cursor_num (mem (process_items e cfg w items)) = Some m /\
            is_max_id l m.
Proof.
  intros Hp Hs Hne Hnum.
  destruct (last items) as [x|] eqn:Hl.
  2:{ apply last_None in Hl as ->. apply Permutation_nil_l in Hp.
      congruence. }
  assert (Hx : x ∈ l).
  { rewrite <- Hp. apply last_Some_elem_of. exact Hl. }
  rewrite Forall_forall in Hnum. destruct (Hnum x Hx) as [m Hm].
  exists m. unfold cursor_num. rewrite process_items_cursor, Hl.
  split; [exact Hm|]. split; [exists x; auto|].
  intros n k Hn Hk. apply last_Some in Hl as [l' ->].
  rewrite <- Hp in Hn. apply elem_of_app in Hn as [Hn|Hn].
  - apply StronglySorted_app in Hs as (Hle & _ & _).
    destruct (Hle n x Hn) as (kn & kx & Hkn & Hkx & Hnx).
    + apply list_elem_of_singleton. reflexivity.
    + congruence.
  - apply list_elem_of_singleton in Hn as ->.
    assert (k = m) by congruence. lia.
Qed.

Section Cycle.

Variable json_dump : state -> string.
Variable e : env.
Variable cfg : config.

Lemma cycle_startup_path w :
  startup_path cfg w ->
  cycle json_dump e cfg w =
  let w1 := fetched (prune_step e cfg w) in
  match notifications e (fetches w) with
  | FetchFault => Crashed MastodonError w1
  | Fetched [] => Slept w1
  | Fetched l =>
    match max_id l with
    | None => Crashed ValueError w1
    | Some m =>
      Slept (save json_dump cfg
               (set_mem w1 (set_cursor (mem w1) (IdStr (str_of_int m)))))
    end
  end.
Proof.
  intros [Hc Hs]. unfold cycle. simpl. rewrite Hc, Hs. reflexivity.
Qed.

Lemma cycle_batch_path w :
  batch_path cfg w ->
  cycle json_dump e cfg w =
  let w1 := fetched (prune_step e cfg w) in
  match notifications e (fetches w) with
  | FetchFault => Slept w1
  | Fetched [] => Slept w1
  | Fetched l =>
    match sorted_by_id l with
    | None => Crashed ValueError w1
    | Some items => Slept (save json_dump cfg (process_items e cfg w1 items))
    end
  end.
Proof.
  unfold batch_path. intros H. unfold cycle. simpl.
  destruct (last_notification_id (mem w)) as [c|]; [reflexivity|].
  destruct H as [H|H]; [congruence|]. rewrite H. reflexivity.
Qed.

Lemma path_dec w : {startup_path cfg w} + {batch_path cfg w}.
Proof.
  unfold startup_path, batch_path.
  destruct (last_notification_id (mem w)); [right; left; discriminate|].
  destruct (startup_skip_existing cfg); [left; auto|right; auto].
Qed.

Lemma ids_of_Forall l :
  is_Some (ids_of l) <-> Forall (fun n => is_Some (py_int (notif_id n))) l.
Proof.
  unfold ids_of. split.
  - intros [ks H]. apply mapM_Some_1 in H.
    induction H; constructor; eauto.
  - intros H. induction H as [|n l [k Hk] _ [ks IH]].
    + exists []. reflexivity.
    + exists (k :: ks). apply mapM_Some_2. constructor; [exact Hk|].
      apply mapM_Some_1. exact IH.
Qed.

Lemma above_cursor_perm st l l' :
  l ≡ₚ l' -> above_cursor st l' -> above_cursor st l.
Proof.
  intros Hp H c n k Hc Hn Hk. apply (H c n k Hc); [|exact Hk].
  rewrite <- Hp. exact Hn.
Qed.

Lemma process_items_cursor_le items : forall w,
  StronglySorted id_le items -> above_cursor (mem w) items ->
  Forall (fun n => is_Some (py_int (notif_id n))) items ->
  cursor_le (mem w) (mem (process_items e cfg w items)).
Proof.
  induction items as [|x items IH] using rev_ind; intros w Hs Hab Hnum.
  - apply cursor_le_refl.
  - rewrite process_items_app. simpl.
    apply Forall_app in Hnum as [Hnum Hx].
    apply Forall_cons in Hx as [Hx _].
    eapply cursor_le_trans.
    + apply IH; [|intros c n k Hc Hn; apply (Hab c n k Hc),
                   elem_of_app; left; exact Hn|exact Hnum].
      eapply StronglySorted_app_1_l. exact Hs.
    + apply (process_items_step_le e cfg w items x []); [exact Hs|exact Hx|].
      intros _ c n k Hc Hn. apply (Hab c n k Hc), elem_of_app. right. exact Hn.
Qed.

Lemma cursor_num_prune_step w :
  cursor_num (mem (fetched (prune_step e cfg w))) = cursor_num (mem w).
Proof. reflexivity. Qed.

Lemma cursor_le_prune_step w :
  cursor_le (mem w) (mem (fetched (prune_step e cfg w))).
Proof. intros a Ha. exists a. split; [exact Ha|lia]. Qed.

#[local] Hint Resolve cursor_le_prune_step : cursor.

(** One cycle, with a service that honours [since_id]. *)
Lemma cycle_cursor_le w :
  (forall l, notifications e (fetches w) = Fetched l -> above_cursor (mem w) l) ->
  cursor_le (mem w) (mem (outcome_world (cycle json_dump e cfg w))).
Proof.
  intros Hab. destruct (path_dec w) as [Hp|Hp].
  - intros a Ha. destruct Hp as [Hc _]. unfold cursor_num in Ha.
    rewrite Hc in Ha. discriminate.
  - rewrite (cycle_batch_path w Hp). simpl.
    destruct (notifications e (fetches w)) as [|[|n l]] eqn:Hf;
      [auto with cursor..|].
    destruct (sorted_by_id (n :: l)) as [items|] eqn:Hs; simpl;
      [|auto with cursor].
    destruct (sorted_by_id_spec _ _ Hs) as (Hperm & Hsorted & ks & Hks & _).
    eapply cursor_le_trans; [apply cursor_le_prune_step|].
    apply (process_items_cursor_le items (fetched (prune_step e cfg w))).
    + exact Hsorted.
    + eapply above_cursor_perm; [exact Hperm|].
      intros c x k. rewrite cursor_num_prune_step. apply (Hab _ eq_refl).
    + apply ids_of_Forall. eauto.
Qed.

Lemma run_cursor_le k : forall w w',
  honours_since_id json_dump e cfg k w -> run json_dump e cfg k w = Slept w' ->
  cursor_le (mem w) (mem w').
Proof.
  induction k as [|k IH]; intros w w' Hh Hrun; simpl in Hrun.
  - injection Hrun as <-. auto with cursor.
  - pose proof (cycle_cursor_le w) as Hc.
    destruct (cycle json_dump e cfg w) as [w1|x w1] eqn:Hcy; [|discriminate].
    eapply cursor_le_trans.
    + apply Hc. intros l Hl. apply (Hh O w l); [lia|reflexivity|exact Hl].
    + apply (IH w1 w'); [|exact Hrun].
      intros j wj l Hj Hrj Hl. apply (Hh (S j) wj l); [lia| |exact Hl].
      simpl. rewrite Hcy. exact Hrj.
Qed.

End Cycle.

Lemma is_max_id_perm l l' m : l ≡ₚ l' -> is_max_id l m -> is_max_id l' m.
Proof.
  intros Hp [(n & Hn & Hm) Hub]. split.
  - exists n. rewrite <- Hp. auto.
  - intros x k Hx. apply Hub. rewrite Hp. exact Hx.
Qed.

(** C2 (amended). Each event moves the cursor to its own identifier,
    whatever is decided for it and whether or not the reaction succeeds; a
    batch is processed in ascending numeric order of identifier and leaves
    the cursor at its largest identifier, whatever the order it was
    fetched in; no step of the [for] loop after the first makes the cursor
    go down. The first step of a batch, and with it a sequence of cycles,
    does not make the cursor go down provided the service returned only
    identifiers above the cursor it was sent ([since_id]): the code itself
    compares nothing with the cursor. *)
Theorem cursor_advance (json_dump : state -> string) (e : env) (cfg : config) :
  (forall w item,
     last_notification_id (mem (fst (process_item e cfg w item))) =
     Some (notif_id item)) /\
  (forall w l,
     batch_path cfg w -> notifications e (fetches w) = Fetched l ->
     l <> [] -> Forall (fun n => is_Some (py_int (notif_id n))) l ->
     exists items m,
       items ≡ₚ l /\ StronglySorted id_le items /\
       cycle json_dump e cfg w =
         Slept (save json_dump cfg
                  (process_items e cfg (fetched (prune_step e cfg w)) items)) /\
       cursor_num (mem (outcome_world (cycle json_dump e cfg w))) = Some m /\
       forall l', l' ≡ₚ l -> is_max_id l' m) /\
  (forall w l items l1 x l2,
     sorted_by_id l = Some items -> items = l1 ++ x :: l2 ->
     (l1 = [] -> above_cursor (mem w) l) ->
     cursor_le (mem (process_items e cfg w l1))
               (mem (fst (process_item e cfg (process_items e cfg w l1) x)))) /\
  (forall k w w',
     honours_since_id json_dump e cfg k w ->
     run json_dump e cfg k w = Slept w' ->
     cursor_le (mem w) (mem w')).
Proof.
  split; [|split; [|split]].
  - intros w item. apply process_item_cursor.
  - intros w l Hp Hf Hne Hnum.
    destruct (proj2 (ids_of_Forall l) Hnum) as [ks Hks].
    destruct (sorted_by_id_is_Some l ks Hks) as [items Hs].
    destruct (sorted_by_id_spec l items Hs) as (Hperm & Hsorted & _).
    destruct (process_items_max e cfg (fetched (prune_step e cfg w)) l items
                Hperm Hsorted Hne Hnum) as (m & Hm & Hmax).
    assert (Hc : cycle json_dump e cfg w =
                 Slept (save json_dump cfg
                   (process_items e cfg (fetched (prune_step e cfg w)) items))).
    { rewrite (cycle_batch_path json_dump e cfg w Hp). simpl. rewrite Hf.
      destruct l as [|n l]; [congruence|]. rewrite Hs. reflexivity. }
    exists items, m. split; [exact Hperm|]. split; [exact Hsorted|].
    split; [exact Hc|]. split; [rewrite Hc; exact Hm|].
    intros l' Hl'. eapply is_max_id_perm; [symmetry; exact Hl'|exact Hmax].
  - intros w l items l1 x l2 Hs -> Hab.
    destruct (sorted_by_id_spec l _ Hs) as (Hperm & Hsorted & ks & Hks & _).
    assert (Hx : x ∈ l1 ++ x :: l2).
    { apply elem_of_app. right. apply elem_of_cons. left. reflexivity. }
    apply (process_items_step_le e cfg w l1 x l2); [exact Hsorted| |].
    + assert (Hnum : is_Some (ids_of (l1 ++ x :: l2))) by eauto.
      apply ids_of_Forall in Hnum. rewrite Forall_forall in Hnum.
      apply Hnum. exact Hx.
    + intros Hl1 c n k Hc Hn. apply list_elem_of_singleton in Hn as ->.
      apply (Hab Hl1 c x k Hc). rewrite <- Hperm. exact Hx.
  - intros k w w'. apply run_cursor_le.
Qed.

Example batch_5_2_9 :
  let e := steady 5000%Q
             (Fetched [mention (IdStr "5") (IdInt 1) "a";
                       {| notif_id := IdStr "2"; notif_type := "follow";
                          notif_status := None |};
                       mention (IdStr "9") (IdInt 3) "c"]) false in
  let w := at_rest (set_cursor fresh_state (IdStr "1")) ∅ in
  match cycle sample_dump e (sample_cfg 3600 true) w with
  | Slept w' =>
    last_notification_id (mem w') = Some (IdStr "9") /\
    files w' !! "state.json" = Some "9" /\
    reblogs w' = [(IdInt 3, false); (IdInt 1, false)] /\
    boosted_status_ids (mem w') = ∅
  | Crashed _ _ => False
  end.
Proof. vm_compute. auto. Qed.

Lemma cursor_advance_witness :
  (let l := [mention (IdStr "5") (IdInt 1) "a";
             mention (IdStr "2") (IdInt 2) "b";
             mention (IdStr "9") (IdInt 3) "c"] in
   let e := steady 5000%Q (Fetched l) false in
   let w := at_rest (set_cursor fresh_state (IdStr "1")) ∅ in
   exists m,
     cursor_num (mem (outcome_world (cycle sample_dump e (sample_cfg 3600 true) w)))
       = Some m /\ is_max_id l m) /\
  (let e := scripted 5000%Q
              [Fetched [mention (IdStr "5") (IdInt 1) "a";
                        mention (IdStr "2") (IdInt 2) "b";
                        mention (IdStr "9") (IdInt 3) "c"];
               FetchFault;
               Fetched [mention (IdStr "12") (IdInt 4) "a";
                        mention (IdInt 10) (IdInt 5) "b"]] true in
   let w := at_rest (set_cursor fresh_state (IdStr "1")) ∅ in
   exists w',
     run sample_dump e (sample_cfg 3600 true) 3 w = Slept w' /\
     last_notification_id (mem w') = Some (IdStr "12") /\
     cursor_le (mem w) (mem w')).
Proof.
  split.
  - intros l e w.
    destruct (cursor_advance sample_dump e (sample_cfg 3600 true))
      as (_ & H & _).
    destruct (H w l) as (items & m & _ & _ & _ & Hm & Hmax).
    + left. discriminate.
    + reflexivity.
    + discriminate.
    + repeat constructor; eexists; reflexivity.
    + exists m. split; [exact Hm|]. apply Hmax. reflexivity.
  - intros e w.
    destruct (cursor_advance sample_dump e (sample_cfg 3600 true))
      as (_ & _ & _ & H).
    eexists. split; [vm_compute; reflexivity|]. split; [reflexivity|].
    apply (H 3%nat w); [|vm_compute; reflexivity].
    intros j wj l Hj Hrun Hf c n k Hc Hn Hk.
    destruct j as [|[|[|j]]]; [| | |lia];
      vm_compute in Hrun; injection Hrun as <-;
      vm_compute in Hf; try discriminate Hf; injection Hf as <-;
      vm_compute in Hc; injection Hc as <-;
      repeat (apply elem_of_cons in Hn as [->|Hn];
              [vm_compute in Hk; injection Hk as <-; lia|]);
      inversion Hn.
Defined.

(** C2, as stated, fails: line 129 assigns the identifier of each event
    without comparing it with the cursor. With the cursor at 100 and an
    answer holding the one identifier 9, the cycle leaves the cursor at 9
    and saves it; and in a batch of two the first step of the [for] loop
    takes the cursor from 100 down to 9. *)
Lemma cursor_can_decrease :
  (let e := steady 5000%Q (Fetched [mention (IdStr "9") (IdInt 3) "c"]) true in
   let w := at_rest (set_cursor fresh_state (IdStr "100")) ∅ in
   exists w',
     cycle sample_dump e (sample_cfg 3600 true) w = Slept w' /\
     cursor_num (mem w) = Some 100 /\
     cursor_num (mem w') = Some 9 /\
     files w' !! "state.json" = Some "9" /\
     ~ cursor_le (mem w) (mem w')) /\
  (let e := steady 5000%Q (Fetched []) true in
   let w := at_rest (set_cursor fresh_state (IdStr "100")) ∅ in
   let x := mention (IdStr "9") (IdInt 3) "c" in
   let y := mention (IdStr "12") (IdInt 4) "d" in
   sorted_by_id [y; x] = Some [x; y] /\
   cursor_num (mem (process_items e (sample_cfg 3600 true) w [])) = Some 100 /\
   cursor_num (mem (fst (process_item e (sample_cfg 3600 true)
                           (process_items e (sample_cfg 3600 true) w []) x)))
     = Some 9).
Proof.
  split.
  - eexists. split; [vm_compute; reflexivity|].
    split; [reflexivity|]. split; [reflexivity|]. split; [reflexivity|].
    intros H. destruct (H 100 eq_refl) as (b & Hb & Hle).
    vm_compute in Hb. injection Hb as <-. lia.
  - split; [vm_compute; reflexivity|]. split; reflexivity.
Qed.

(** ** Printing and reading identifiers *)

Lemma int_of_string_plus s : NilZero.int_of_string (String "+" s) = None.
Proof.
  unfold NilZero.int_of_string, NilZero.uint_of_string. simpl.
  destruct (NilEmpty.uint_of_string s); reflexivity.
Qed.

Lemma int_of_str_other a s :
  a <> "+"%char ->
  int_of_str (String a s) = option_map Z.of_int (NilZero.int_of_string (String a s)).
Proof.
  intros Ha. unfold int_of_str.
  destruct a as [[] [] [] [] [] [] [] []]; try reflexivity. congruence.
Qed.

(** [int(str(n)) == n] *)
Lemma int_of_str_of_int n : int_of_str (str_of_int n) = Some n.
Proof.
  unfold str_of_int.
  assert (H : NilZero.int_of_string (NilZero.string_of_int (Z.to_int n))
              = Some (Z.to_int n)).
  { apply NilZero.isi; destruct n as [|p|p]; simpl; try discriminate;
      intros [= Hp]; exact (DecimalPos.Unsigned.to_uint_nonnil p Hp). }
  destruct (NilZero.string_of_int (Z.to_int n)) as [|a s] eqn:Hs.
  - discriminate.
  - destruct (Ascii.ascii_dec a "+") as [->|Ha].
    + rewrite int_of_string_plus in H. discriminate.
    + rewrite int_of_str_other by exact Ha. rewrite H. simpl.
      f_equal. apply DecimalZ.of_to.
Qed.

(** ** The largest identifier *)

Lemma foldl_max_spec ks : forall k,
  let m := foldl Z.max k ks in
  m ∈ k :: ks /\ Forall (fun x => x <= m) (k :: ks).
Proof.
  induction ks as [|x ks IH]; intros k; simpl.
  - split; [apply elem_of_cons; left; reflexivity|].
    constructor; [lia|constructor].
  - destruct (IH (Z.max k x)) as [Hin Hall].
    apply Forall_cons in Hall as [Hk Hall]. split.
    + apply elem_of_cons in Hin as [Hin|Hin].
      * rewrite Hin. destruct (Z.max_spec k x) as [[_ ->]|[_ ->]].
        -- apply elem_of_cons. right. apply elem_of_cons. left. reflexivity.
        -- apply elem_of_cons. left. reflexivity.
      * apply elem_of_cons. right. apply elem_of_cons. right. exact Hin.
    + repeat constructor; [lia|lia|exact Hall].
Qed.

Lemma ids_of_elem l ks :
  ids_of l = Some ks ->
  (forall k, k ∈ ks -> exists n, n ∈ l /\ py_int (notif_id n) = Some k) /\
  (forall n k, n ∈ l -> py_int (notif_id n) = Some k -> k ∈ ks).
Proof.
  unfold ids_of. intros H. apply mapM_Some_1 in H.
  induction H as [|n k l ks Hk _ [IH1 IH2]].
  - split; [intros k H|intros n k H _]; inversion H.
  - split.
    + intros k' Hk'. apply elem_of_cons in Hk' as [->|Hk'].
      * exists n. split; [apply elem_of_cons; left; reflexivity|exact Hk].
      * destruct (IH1 k' Hk') as (n' & Hn' & Hk'').
        exists n'. split; [apply elem_of_cons; right; exact Hn'|exact Hk''].
    + intros n' k' Hn' Hk'. apply elem_of_cons in Hn' as [->|Hn'].
      * apply elem_of_cons. left. congruence.
      * apply elem_of_cons. right. eapply IH2; eassumption.
Qed.

Lemma max_id_spec l m : max_id l = Some m -> is_max_id l m.
Proof.
  unfold max_id. destruct (ids_of l) as [[|k ks]|] eqn:Hids; try discriminate.
  intros [= <-]. destruct (ids_of_elem l _ Hids) as [H1 H2].
  destruct (foldl_max_spec ks k) as [Hin Hall]. split.
  - apply H1. exact Hin.
  - intros n x Hn Hx. rewrite Forall_forall in Hall. apply Hall.
    eapply H2; eassumption.
Qed.

Lemma max_id_is_Some l :
  l <> [] -> Forall (fun n => is_Some (py_int (notif_id n))) l ->
  is_Some (max_id l).
Proof.
  intros Hne Hnum. apply ids_of_Forall in Hnum as [ks Hks].
  unfold max_id. rewrite Hks. destruct ks as [|k ks]; [|eauto].
  unfold ids_of in Hks. apply mapM_Some_1, Forall2_length in Hks.
  destruct l; [congruence|discriminate].
Qed.

Lemma is_max_id_unique l m m' : is_max_id l m -> is_max_id l m' -> m = m'.
Proof.
  intros [(n & Hn & Hm) Hub] [(n' & Hn' & Hm') Hub'].
  pose proof (Hub n' m' Hn' Hm'). pose proof (Hub' n m Hn Hm). lia.
Qed.

(** ** Startup with [startup_skip_existing] *)

(** C7. On a cycle with no cursor and [startup_skip_existing] set: a
    non-empty snapshot sets the cursor to its largest identifier
    (compared as numbers, stored as the string [str(max_id)]), the state
    is saved and [status_reblog] is not called; an empty snapshot leaves
    the cursor unset, so that the next cycle takes the same path. *)
Theorem startup_skip (json_dump : state -> string) (e : env) (cfg : config)
    (w : world) :
  startup_path cfg w ->
  (forall l m,
     notifications e (fetches w) = Fetched l -> l <> [] ->
     Forall (fun n => is_Some (py_int (notif_id n))) l -> is_max_id l m ->
     exists w', cycle json_dump e cfg w = Slept w' /\
       last_notification_id (mem w') = Some (IdStr (str_of_int m)) /\
       cursor_num (mem w') = Some m /\
       files w' !! state_file cfg = Some (json_dump (mem w')) /\
       reblogs w' = reblogs w) /\
  (notifications e (fetches w) = Fetched [] ->
     exists w', cycle json_dump e cfg w = Slept w' /\
       last_notification_id (mem w') = None /\
       startup_path cfg w' /\
       files w' = files w /\
       reblogs w' = reblogs w).
Proof.
  intros Hp. rewrite (cycle_startup_path json_dump e cfg w Hp). simpl. split.
  - intros l m Hf Hne Hnum Hmax. rewrite Hf.
    destruct (max_id_is_Some l Hne Hnum) as [m' Hm'].
    assert (m' = m) as ->.
    { eapply is_max_id_unique; [apply max_id_spec; exact Hm'|exact Hmax]. }
    destruct l as [|n l]; [congruence|]. rewrite Hm'.
    eexists. split; [reflexivity|]. simpl. split; [reflexivity|].
    split; [apply int_of_str_of_int|]. split; [|reflexivity].
    unfold save_state, save_state_upto. apply lookup_insert_eq.
  - intros Hf. rewrite Hf. eexists. split; [reflexivity|].
    destruct Hp as [Hc Hs]. simpl. repeat split; assumption.
Qed.

Example startup_42 :
  let e := steady 5000%Q
             (Fetched [mention (IdStr "7") (IdInt 1) "alice";
                       mention (IdInt 42) (IdInt 2) "bob";
                       mention (IdStr "13") (IdInt 3) "carol"]) true in
  cycle sample_dump e (sample_cfg 3600 true) (at_rest fresh_state ∅)
  = Slept {| mem := set_cursor fresh_state (IdStr "42");
             files := {[ "state.json" := "42" ]};
             ticks := 1; fetches := 1; reblogs := [] |}.
Proof. vm_compute. reflexivity. Qed.

Lemma startup_skip_witness :
  let l := [mention (IdStr "7") (IdInt 1) "alice";
            mention (IdInt 42) (IdInt 2) "bob";
            mention (IdStr "13") (IdInt 3) "carol"] in
  let e := steady 5000%Q (Fetched l) true in
  exists w',
    cycle sample_dump e (sample_cfg 3600 true) (at_rest fresh_state ∅) = Slept w' /\
    last_notification_id (mem w') = Some (IdStr "42") /\
    reblogs w' = [].
Proof.
  intros l e.
  assert (Hp : startup_path (sample_cfg 3600 true) (at_rest fresh_state ∅))
    by (split; reflexivity).
  destruct (startup_skip sample_dump e (sample_cfg 3600 true) _ Hp) as [H _].
  destruct (H l 42) as (w' & Hc & Hcur & _ & _ & Hr).
  - reflexivity.
  - discriminate.
  - repeat constructor; eexists; reflexivity.
  - split.
    + exists (mention (IdInt 42) (IdInt 2) "bob"). split; [|reflexivity].
      apply elem_of_cons. right. apply elem_of_cons. left. reflexivity.
    + intros n k Hn Hk.
      repeat (apply elem_of_cons in Hn as [->|Hn];
              [vm_compute in Hk; injection Hk as <-; lia|]).
      inversion Hn.
  - exists w'. auto.
Defined.

(** ** A fetch that fails *)

Lemma prune_state_id st now mi :
  nothing_expired st now mi -> prune_state st now mi = st.
Proof.
  intros [Hu Hs]. destruct st as [c users statuses]. unfold prune_state.
  simpl in *. f_equal; apply map_eq; intros k; rewrite filter_within_lookup.
  - destruct (users !! k) as [ts|] eqn:Hk; [|reflexivity].
    replace (mi * 2) with (2 * mi) by lia.
    rewrite (proj2 (within_true now (2 * mi) ts) (Hu k ts Hk)). reflexivity.
  - destruct (statuses !! k) as [ts|] eqn:Hk; [|reflexivity].
    rewrite (proj2 (within_true now (24 * 3600) ts) (Hs k ts Hk)). reflexivity.
Qed.

(** C4 (amended). A fault of the fetch of lines 113-116 is not fatal: the
    cycle ends in its sleep, nothing is written to disk, [status_reblog]
    is not called and the cursor is unchanged; the two tables are as the
    pruning at the start of the cycle left them, that is unchanged when
    no entry had expired. *)
Theorem fetch_fault_isolated (json_dump : state -> string) (e : env)
    (cfg : config) (w : world) :
  batch_path cfg w ->
  notifications e (fetches w) = FetchFault ->
  let now := time_time e (ticks w) in
  exists w', cycle json_dump e cfg w = Slept w' /\
    mem w' = prune_state (mem w) now (min_interval cfg) /\
    last_notification_id (mem w') = last_notification_id (mem w) /\
    files w' = files w /\
    reblogs w' = reblogs w /\
    (nothing_expired (mem w) now (min_interval cfg) -> mem w' = mem w).
Proof.
  intros Hp Hf now. rewrite (cycle_batch_path json_dump e cfg w Hp). simpl.
  rewrite Hf. eexists. split; [reflexivity|]. simpl.
  repeat split. apply prune_state_id.
Qed.

Lemma fetch_fault_isolated_witness :
  let st := {| last_notification_id := Some (IdStr "41");
               last_boost_per_user := {[ "alice" := 4000%Q ]};
               boosted_status_ids := {[ "7" := 4000%Q ]} |} in
  exists w',
    cycle sample_dump (steady 5000%Q FetchFault true) (sample_cfg 3600 true)
      (at_rest st ∅) = Slept w' /\
    mem w' = st /\ files w' = ∅.
Proof.
  intros st.
  destruct (fetch_fault_isolated sample_dump (steady 5000%Q FetchFault true)
              (sample_cfg 3600 true) (at_rest st ∅))
    as (w' & Hc & _ & _ & Hfs & _ & Hmem).
  - left. discriminate.
  - reflexivity.
  - exists w'. split; [exact Hc|]. split; [|exact Hfs]. apply Hmem.
    split; intros k ts Hk Hold; unfold older_than in Hold; simpl in Hk.
    + destruct (decide (k = "alice")) as [->|Hne].
      * rewrite lookup_singleton_eq in Hk. injection Hk as <-.
        vm_compute in Hold. discriminate.
      * rewrite lookup_singleton_ne in Hk by congruence. discriminate.
    + destruct (decide (k = "7")) as [->|Hne].
      * rewrite lookup_singleton_eq in Hk. injection Hk as <-.
        vm_compute in Hold. discriminate.
      * rewrite lookup_singleton_ne in Hk by congruence. discriminate.
Defined.

(** C4, as stated, fails twice. A cycle whose fetch fails has pruned
    first: an entry that had expired is gone from the table. And the
    fetch of the startup path (line 101) is outside any [try]: its fault
    ends the process instead of the cycle. *)
Lemma fetch_fault_not_isolated :
  (let st := {| last_notification_id := Some (IdStr "41");
                last_boost_per_user := {[ "alice" := 1000%Q ]};
                boosted_status_ids := ∅ |} in
   exists w',
     cycle sample_dump (steady 100000%Q FetchFault true) (sample_cfg 3600 true)
       (at_rest st ∅) = Slept w' /\
     last_boost_per_user (mem w') !! "alice" = None /\
     last_boost_per_user st !! "alice" = Some 1000%Q) /\
  (exists w',
     cycle sample_dump (steady 100000%Q FetchFault true) (sample_cfg 3600 true)
       (at_rest fresh_state ∅) = Crashed MastodonError w').
Proof.
  split.
  - eexists. split; [vm_compute; reflexivity|]. split; reflexivity.
  - eexists. vm_compute. reflexivity.
Qed.

(** ** The state store *)

Lemma string_length_app (s t : string) :
  String.length (s ++ t)%string = (String.length s + String.length t)%nat.
Proof. induction s as [|a s IH]; simpl; [reflexivity|]. rewrite IH. reflexivity. Qed.

Lemma tmp_path_ne path : tmp_path path <> path.
Proof.
  unfold tmp_path. intros H. apply (f_equal String.length) in H.
  rewrite string_length_app in H. simpl in H. lia.
Qed.

(** C5. [save_state] writes the text to the temporary path and only then
    renames it over the target. If the process dies before the rename,
    the target holds what it held before, whole, and [load_state] returns
    what it would have returned before the call: after an earlier
    completed save of [st0], that is [st0] again. Once the rename is
    done the target holds the whole new text. (The rename itself is
    atomic: that is the file system's part.) *)
Theorem save_state_atomic (json_dump : state -> string)
    (json_load : string -> option state) (fs : gmap string string)
    (path : string) (st : state) :
  (forall p, p <> Replaced ->
     save_state_upto json_dump p fs path st !! path = fs !! path /\
     (forall q, q <> tmp_path path ->
        save_state_upto json_dump p fs path st !! q = fs !! q) /\
     load_state json_load (save_state_upto json_dump p fs path st) path =
       load_state json_load fs path) /\
  (save_state json_dump fs path st !! path = Some (json_dump st) /\
   save_state json_dump fs path st !! tmp_path path = None) /\
  (forall p fs0 st0,
     p <> Replaced ->
     fs = save_state json_dump fs0 path st0 ->
     json_load (json_dump st0) = Some st0 ->
     load_state json_load (save_state_upto json_dump p fs path st) path = Ok st0).
Proof.
  assert (Hother : forall p q, p <> Replaced -> q <> tmp_path path ->
            save_state_upto json_dump p fs path st !! q = fs !! q).
  { intros p q Hp Hq. destruct p; simpl; try congruence;
      apply lookup_insert_ne; congruence. }
  assert (Hpath : forall p, p <> Replaced ->
            save_state_upto json_dump p fs path st !! path = fs !! path).
  { intros p Hp. apply Hother; [exact Hp|]. intros H. symmetry in H.
    exact (tmp_path_ne path H). }
  split; [|split].
  - intros p Hp. split; [apply Hpath; exact Hp|].
    split; [intros q; apply Hother; exact Hp|].
    unfold load_state. rewrite Hpath by exact Hp. reflexivity.
  - unfold save_state, save_state_upto. split.
    + apply lookup_insert_eq.
    + rewrite lookup_insert_ne by (intros H; exact (tmp_path_ne path (eq_sym H))).
      apply lookup_delete_eq.
  - intros p fs0 st0 Hp Hfs Hround. unfold load_state.
    rewrite Hpath by exact Hp. rewrite Hfs.
    unfold save_state, save_state_upto. rewrite lookup_insert_eq, Hround.
    reflexivity.
Qed.

Lemma save_state_atomic_witness :
  let st0 := set_cursor fresh_state (IdStr "41") in
  let st := set_cursor fresh_state (IdStr "4242") in
  let fs := save_state sample_dump ∅ "state.json" st0 in
  save_state_upto sample_dump (Writing 2) fs "state.json" st
    = {[ "state.json" := "41"; "state.json.tmp" := "42" ]} /\
  load_state sample_load
    (save_state_upto sample_dump (Writing 2) fs "state.json" st) "state.json"
    = Ok st0.
Proof.
  intros st0 st fs. split; [vm_compute; reflexivity|].
  destruct (save_state_atomic sample_dump sample_load fs "state.json" st)
    as (_ & _ & H).
  apply (H (Writing 2) ∅ st0); [discriminate|reflexivity|reflexivity].
Defined.

(** C9. Without a state file [load_state] returns the fresh document: no
    cursor, two empty tables. With a file that [json.load] cannot parse
    it raises ([json.JSONDecodeError]); [main] does not catch it, so the
    process ends there and never enters the loop with an empty state. *)
Theorem load_state_fresh_or_fatal (json_load : string -> option state)
    (fs : gmap string string) (path : string) :
  (fs !! path = None ->
     load_state json_load fs path = Ok fresh_state /\
     last_notification_id fresh_state = None /\
     last_boost_per_user fresh_state = ∅ /\
     boosted_status_ids fresh_state = ∅) /\
  (forall text, fs !! path = Some text -> json_load text = None ->
     load_state json_load fs path = Raise JSONDecodeError /\
     forall cfg base_url access_token verified,
       state_file cfg = path ->
       (forall w, main_start json_load cfg base_url access_token verified fs
                  <> Looping w) /\
       (main_start json_load cfg base_url access_token verified fs
          = Died JSONDecodeError \/
        main_start json_load cfg base_url access_token verified fs
          = Died MastodonError \/
        main_start json_load cfg base_url access_token verified fs = Exit 2)).
Proof.
  split.
  - intros H. unfold load_state. rewrite H. auto.
  - intros text Hf Hbad.
    assert (Hl : load_state json_load fs path = Raise JSONDecodeError).
    { unfold load_state. rewrite Hf, Hbad. reflexivity. }
    split; [exact Hl|].
    intros cfg base_url access_token verified Hpath. unfold main_start.
    rewrite Hpath, Hl.
    destruct base_url as [[|? ?]|], access_token as [[|? ?]|], verified;
      split; try discriminate; auto.
Qed.

Lemma load_state_fresh_or_fatal_witness :
  load_state sample_load ∅ "state.json" = Ok fresh_state /\
  load_state sample_load {[ "state.json" := EmptyString ]} "state.json"
    = Raise JSONDecodeError /\
  main_start sample_load (sample_cfg 3600 true) (Some "https://example.social")
    (Some "token") true {[ "state.json" := EmptyString ]} = Died JSONDecodeError.
Proof.
  split; [|split].
  - apply (load_state_fresh_or_fatal sample_load ∅ "state.json"). reflexivity.
  - eapply (load_state_fresh_or_fatal sample_load {[ "state.json" := EmptyString ]}
              "state.json"); reflexivity.
  - reflexivity.
Defined.

Lemma failed_reblog_not_recorded_witness :
  (let e := steady 5000%Q FetchFault false in
   let cfg := sample_cfg 3600 true in
   let w := at_rest fresh_state ∅ in
   let item := mention (IdInt 1) (IdInt 7) "alice" in
   snd (process_item e cfg w item) = Act /\
   reblogs (fst (process_item e cfg w item)) = [(IdInt 7, false)] /\
   boosted_status_ids (mem (fst (process_item e cfg w item))) = ∅) /\
  (let e := steady 5000%Q (Fetched [mention (IdInt 1) (IdInt 7) "alice"]) true in
   let cfg := sample_cfg 3600 false in
   exists w',
     run sample_dump e cfg 1 (at_rest fresh_state ∅) = Slept w' /\
     boosted_status_ids (mem w') !! "7" = Some 5000%Q /\
     reblog_succeeded w' "7").
Proof.
  split.
  - intros e cfg w item. split; [reflexivity|]. split; [reflexivity|].
    destruct (failed_reblog_not_recorded sample_dump e cfg) as (H & _).
    apply (H w item); reflexivity.
  - intros e cfg.
    destruct (failed_reblog_not_recorded sample_dump e cfg)
      as (_ & _ & _ & _ & H).
    eexists. split; [vm_compute; reflexivity|]. split; [reflexivity|].
    apply (H 1%nat (at_rest fresh_state ∅) _ "7"); [reflexivity..|].
    eexists. reflexivity.
Defined.

(** * Further properties of the pruner, the store and the loop *)

(** ** Pruning *)

Lemma within_mono now1 now2 bound ts :
  (now1 <= now2)%Q -> within now2 bound ts = true -> within now1 bound ts = true.
Proof.
  unfold within. rewrite !Qle_bool_iff. intros H1 H2. lra.
Qed.

(** X1. Pruning only removes entries; pruning twice at the same time is
    pruning once; and pruning at a later time makes an earlier pruning
    unnoticeable. *)
Theorem prune_state_algebra (st : state) (now1 now2 : Q) (mi : Z) :
  (last_boost_per_user (prune_state st now1 mi) ⊆ last_boost_per_user st /\
   boosted_status_ids (prune_state st now1 mi) ⊆ boosted_status_ids st) /\
  prune_state (prune_state st now1 mi) now1 mi = prune_state st now1 mi /\
  ((now1 <= now2)%Q ->
   prune_state (prune_state st now1 mi) now2 mi = prune_state st now2 mi).
Proof.
  assert (Hlater : forall a b, (a <= b)%Q ->
            prune_state (prune_state st a mi) b mi = prune_state st b mi).
  { intros a b Hab. unfold prune_state. simpl.
    f_equal; apply map_eq; intros k; rewrite !filter_within_lookup;
      (destruct (_ !! k) as [ts|]; [|reflexivity]).
    - destruct (within b (mi * 2) ts) eqn:Hb.
      + rewrite (within_mono a b _ ts Hab Hb), Hb. reflexivity.
      + destruct (within a (mi * 2) ts); [rewrite Hb|]; reflexivity.
    - destruct (within b (24 * 3600) ts) eqn:Hb.
      + rewrite (within_mono a b _ ts Hab Hb), Hb. reflexivity.
      + destruct (within a (24 * 3600) ts); [rewrite Hb|]; reflexivity. }
  split; [split; apply map_filter_subseteq|].
  split; [apply Hlater; lra|apply Hlater].
Qed.

Lemma prune_state_algebra_witness :
  let st := {| last_notification_id := None;
               last_boost_per_user := {[ "a" := 10%Q ; "b" := 9000%Q ]};
               boosted_status_ids := {[ "1" := 10%Q ]} |} in
  prune_state (prune_state st 10000%Q 3600) 20000%Q 3600
  = prune_state st 20000%Q 3600.
Proof.
  intros st.
  apply (prune_state_algebra st 10000%Q 20000%Q 3600). vm_compute. discriminate.
Defined.

(** ** The rate limit, the dedup table and pruning together *)

(** The loop body for an event that passes the three structural checks. *)
Lemma process_item_reaching e cfg w item acct :
  reaches_rate_limit cfg item acct ->
  exists s, notif_status item = Some s /\ status_acct s = Some acct /\
  process_item e cfg w item =
    let now := time_time e (ticks w) in
    let w1 := tick (set_mem w (set_cursor (mem w) (notif_id item))) in
    if Qlt_bool (now - default 0%Q (last_boost_per_user (mem w) !! acct))%Q
                (inject_Z (min_interval cfg))
    then (w1, SkipRateLimited)
    else match boosted_status_ids (mem w) !! py_str (status_id s) with
         | Some _ => (w1, SkipDuplicate)
         | None =>
           let ok := status_reblog e (length (reblogs w)) in
           let w2 := called w1 (status_id s) ok in
           if ok
           then (set_mem w2 (record_boost (mem w2) acct
                               (py_str (status_id s)) now), Act)
           else (w2, Act)
         end.
Proof.
  intros (Ht & (s & Hs & Ha) & Hne & Hbot). exists s.
  split; [exact Hs|]. split; [exact Ha|].
  unfold process_item. rewrite Ht, Hs, Ha. simpl.
  destruct acct as [|c a]; [congruence|].
  destruct (String.eqb_spec (String c a) (bot_acct cfg)) as [Heq|_];
    [congruence|reflexivity].
Qed.

Lemma process_item_rate_limited e cfg w item acct :
  reaches_rate_limit cfg item acct ->
  snd (process_item e cfg w item) = SkipRateLimited <->
  (time_time e (ticks w) - default 0%Q (last_boost_per_user (mem w) !! acct)
   < inject_Z (min_interval cfg))%Q.
Proof.
  intros Hr. destruct (process_item_reaching e cfg w item acct Hr)
    as (s & _ & _ & ->). simpl.
  rewrite <- Qlt_bool_iff. destruct (Qlt_bool _ _); simpl.
  - split; reflexivity.
  - destruct (boosted_status_ids _ !! _); simpl;
      [|destruct (status_reblog _ _); simpl]; split; discriminate.
Qed.

(** X2. Pruning does not change what the rate-limit check says, as long as
    [min_interval] is neither negative nor above the clock's reading: an
    entry old enough to be pruned is too old to limit. *)
Theorem prune_keeps_rate_limit (e : env) (cfg : config) (w : world)
    (item : notification) (acct : string) (now : Q) :
  reaches_rate_limit cfg item acct ->
  0 <= min_interval cfg ->
  (now <= time_time e (ticks w))%Q ->
  (inject_Z (min_interval cfg) <= time_time e (ticks w))%Q ->
  snd (process_item e cfg
         (set_mem w (prune_state (mem w) now (min_interval cfg))) item)
    = SkipRateLimited <->
  snd (process_item e cfg w item) = SkipRateLimited.
Proof.
  intros Hr Hmi Hnow Hclock.
  rewrite !(process_item_rate_limited _ _ _ _ acct Hr). simpl.
  rewrite filter_within_lookup.
  destruct (last_boost_per_user (mem w) !! acct) as [ts|]; [|reflexivity].
  destruct (within now (min_interval cfg * 2) ts) eqn:Hw; [reflexivity|].
  apply not_true_iff_false in Hw. unfold within in Hw.
  rewrite Qle_bool_iff in Hw. simpl.
  assert (Hmi' : (0 <= inject_Z (min_interval cfg))%Q).
  { change 0%Q with (inject_Z 0). rewrite <- Zle_Qle. exact Hmi. }
  assert (H2 : (inject_Z (min_interval cfg * 2)
                == 2 * inject_Z (min_interval cfg))%Q).
  { rewrite inject_Z_mult. change (inject_Z 2) with 2%Q. ring. }
  rewrite H2 in Hw. split; intros H; exfalso; lra.
Qed.

Lemma prune_keeps_rate_limit_witness :
  let st := {| last_notification_id := Some (IdStr "41");
               last_boost_per_user := {[ "alice" := 1000%Q ]};
               boosted_status_ids := ∅ |} in
  snd (process_item (steady 100000%Q FetchFault true) (sample_cfg 3600 true)
         (at_rest (prune_state st 100000%Q 3600) ∅)
         (mention (IdInt 1) (IdInt 7) "alice")) = SkipRateLimited <->
  snd (process_item (steady 100000%Q FetchFault true) (sample_cfg 3600 true)
         (at_rest st ∅) (mention (IdInt 1) (IdInt 7) "alice")) = SkipRateLimited.
Proof.
  intros st.
  apply (prune_keeps_rate_limit (steady 100000%Q FetchFault true)
           (sample_cfg 3600 true) (at_rest st ∅) _ "alice" 100000%Q).
  - split; [reflexivity|]. split; [eexists; split; reflexivity|].
    split; discriminate.
  - simpl. lia.
  - simpl. lra.
  - simpl. unfold Qle. simpl. lia.
Defined.

(** X3. Once an actor has been boosted, the next event of that actor is
    skipped as rate-limited exactly while the clock has advanced by less
    than [min_interval] since the boost. *)
Theorem boost_starts_rate_limit (e : env) (cfg : config) (w : world)
    (item1 item2 : notification) (acct : string) :
  reaches_rate_limit cfg item1 acct ->
  reaches_rate_limit cfg item2 acct ->
  snd (process_item e cfg w item1) = Act ->
  status_reblog e (length (reblogs w)) = true ->
  let w1 := fst (process_item e cfg w item1) in
  last_boost_per_user (mem w1) !! acct = Some (time_time e (ticks w)) /\
  (snd (process_item e cfg w1 item2) = SkipRateLimited <->
   (time_time e (ticks w1) - time_time e (ticks w)
    < inject_Z (min_interval cfg))%Q).
Proof.
  intros Hr1 Hr2 Hact Hok w1.
  assert (Hl : last_boost_per_user (mem w1) !! acct
               = Some (time_time e (ticks w))).
  { subst w1. destruct (process_item_reaching e cfg w item1 acct Hr1)
      as (s & _ & _ & Heq). rewrite Heq in Hact |- *. simpl in *.
    destruct (Qlt_bool _ _); [discriminate|].
    destruct (boosted_status_ids _ !! _); [discriminate|].
    rewrite Hok. simpl. apply lookup_insert_eq. }
  split; [exact Hl|].
  rewrite (process_item_rate_limited e cfg w1 item2 acct Hr2), Hl.
  reflexivity.
Qed.

Lemma boost_starts_rate_limit_witness :
  let e := steady 5000%Q FetchFault true in
  let cfg := sample_cfg 3600 true in
  let w := at_rest fresh_state ∅ in
  snd (process_item e cfg
         (fst (process_item e cfg w (mention (IdInt 1) (IdInt 7) "alice")))
         (mention (IdInt 2) (IdInt 8) "alice")) = SkipRateLimited.
Proof.
  intros e cfg w.
  assert (Hr : forall n s, reaches_rate_limit cfg (mention n s "alice") "alice").
  { intros n s. split; [reflexivity|]. split; [eexists; split; reflexivity|].
    split; discriminate. }
  apply (boost_starts_rate_limit e cfg w _ _ "alice" (Hr _ _) (Hr _ _)
           eq_refl eq_refl).
  simpl. unfold Qlt. simpl. lia.
Defined.

(** ** No status is boosted twice *)

Lemma boosted_keys_app a b :
  boosted_keys (a ++ b) = boosted_keys a ++ boosted_keys b.
Proof. unfold boosted_keys. rewrite filter_app. apply map_app. Qed.

(** What one iteration adds to the calls and to [boosted_status_ids]. *)
Lemma process_item_calls e cfg w item :
  let w' := fst (process_item e cfg w item) in
  (exists step, reblogs w' = step ++ reblogs w /\ boosted_keys step = [] /\
     boosted_status_ids (mem w') = boosted_status_ids (mem w)) \/
  (exists sid now, reblogs w' = [(sid, true)] ++ reblogs w /\
     boosted_status_ids (mem w) !! py_str sid = None /\
     boosted_status_ids (mem w') =
       <[py_str sid := now]> (boosted_status_ids (mem w))).
Proof.
  assert (Hsame : forall w0 : world, reblogs w0 = reblogs w ->
            boosted_status_ids (mem w0) = boosted_status_ids (mem w) ->
            exists step, reblogs w0 = step ++ reblogs w /\
              boosted_keys step = [] /\
              boosted_status_ids (mem w0) = boosted_status_ids (mem w)).
  { intros w0 Hr Hb. exists []. auto. }
  unfold process_item. simpl.
  destruct (negb _); simpl; [left; apply Hsame; reflexivity|].
  destruct (notif_status item) as [s|]; simpl;
    [|left; apply Hsame; reflexivity].
  destruct (status_acct s) as [[|c a]|]; simpl;
    try (left; apply Hsame; reflexivity).
  destruct (String.eqb _ _); simpl; [left; apply Hsame; reflexivity|].
  destruct (Qlt_bool _ _); simpl; [left; apply Hsame; reflexivity|].
  destruct (boosted_status_ids (mem w) !! py_str (status_id s)) eqn:Hb; simpl;
    [left; apply Hsame; reflexivity|].
  destruct (status_reblog e (length (reblogs w))); simpl.
  - right. exists (status_id s), (time_time e (ticks w)). auto.
  - left. exists [(status_id s, false)]. auto.
Qed.

(** X4. Within a batch no two calls of [status_reblog] that succeed are for
    the same key, and none is for a key that [boosted_status_ids] held
    when the batch began; each of them is in the table afterwards, and
    the batch removes nothing from the table. *)
Theorem no_double_boost (e : env) (cfg : config) (items : list notification) :
  forall w,
  let w' := process_items e cfg w items in
  exists new,
    reblogs w' = new ++ reblogs w /\
    NoDup (boosted_keys new) /\
    (forall key, key ∈ boosted_keys new ->
       boosted_status_ids (mem w) !! key = None /\
       is_Some (boosted_status_ids (mem w') !! key)) /\
    boosted_status_ids (mem w) ⊆ boosted_status_ids (mem w').
Proof.
  induction items as [|item rest IH]; intros w; simpl.
  - exists []. split; [reflexivity|]. split; [constructor|].
    split; [intros key Hk; inversion Hk|reflexivity].
  - destruct (IH (fst (process_item e cfg w item)))
      as (new & Hnew & Hnd & Hkeys & Hsub).
    destruct (process_item_calls e cfg w item)
      as [(step & Hstep & Hnone & Hb)|(sid & now & Hstep & Habsent & Hb)].
    + exists (new ++ step). rewrite Hnew, Hstep, app_assoc.
      split; [reflexivity|]. rewrite boosted_keys_app, Hnone, app_nil_r.
      rewrite Hb in Hkeys, Hsub. auto.
    + exists (new ++ [(sid, true)]). rewrite Hnew, Hstep, app_assoc.
      split; [reflexivity|]. rewrite boosted_keys_app.
      change (boosted_keys [(sid, true)]) with [py_str sid].
      rewrite Hb in Hkeys, Hsub.
      assert (Hin : boosted_status_ids
                      (mem (process_items e cfg
                              (fst (process_item e cfg w item)) rest))
                    !! py_str sid = Some now).
      { eapply lookup_weaken; [apply lookup_insert_eq|exact Hsub]. }
      split; [|split].
      * apply NoDup_app. split; [exact Hnd|]. split; [|apply NoDup_singleton].
        intros key Hk Hk'. apply list_elem_of_singleton in Hk' as ->.
        destruct (Hkeys _ Hk) as [Hn _].
        rewrite lookup_insert_eq in Hn. discriminate.
      * intros key Hk. apply elem_of_app in Hk as [Hk|Hk].
        -- destruct (Hkeys _ Hk) as [Hn Hs]. split; [|exact Hs].
           apply lookup_insert_None in Hn as [Hn _]. exact Hn.
        -- apply list_elem_of_singleton in Hk as ->. split; [exact Habsent|].
           rewrite Hin. eauto.
      * etransitivity; [|exact Hsub]. apply insert_subseteq. exact Habsent.
Qed.

Example same_status_twice :
  let e := steady 5000%Q FetchFault true in
  let w := process_items e (sample_cfg 0 true) (at_rest fresh_state ∅)
             [mention (IdInt 1) (IdInt 7) "alice";
              mention (IdInt 2) (IdStr "7") "bob";
              mention (IdInt 3) (IdInt 8) "bob"] in
  reblogs w = [(IdInt 8, true); (IdInt 7, true)].
Proof. vm_compute. reflexivity. Qed.

Lemma no_double_boost_witness :
  let e := steady 5000%Q FetchFault true in
  let batch := [mention (IdInt 1) (IdInt 7) "alice";
                mention (IdInt 2) (IdStr "7") "bob";
                mention (IdInt 3) (IdInt 8) "bob"] in
  NoDup (boosted_keys
           (reblogs (process_items e (sample_cfg 0 true)
                       (at_rest fresh_state ∅) batch))).
Proof.
  intros e batch.
  destruct (no_double_boost e (sample_cfg 0 true) batch (at_rest fresh_state ∅))
    as (new & Hnew & Hnd & _).
  rewrite Hnew. simpl. rewrite app_nil_r. exact Hnd.
Defined.

(** ** Saving and loading *)

(** X6. What [save_state] leaves on disk: the target holds the new text, the
    temporary file is gone (also one left behind earlier), every other
    file is as before; a second save replaces the first altogether; and
    when [json.load] reads back what [json.dump] wrote for [st],
    [load_state] after [save_state] returns [st]. *)
Theorem save_state_then_load (json_dump : state -> string)
    (json_load : string -> option state) (fs : gmap string string)
    (path : string) (st0 st : state) :
  save_state json_dump fs path st =
    <[path := json_dump st]> (delete (tmp_path path) fs) /\
  (forall q, q <> path -> q <> tmp_path path ->
     save_state json_dump fs path st !! q = fs !! q) /\
  save_state json_dump (save_state json_dump fs path st0) path st =
    save_state json_dump fs path st /\
  (json_load (json_dump st) = Some st ->
   load_state json_load (save_state json_dump fs path st) path = Ok st).
Proof.
  assert (Heq : forall fs' s, save_state json_dump fs' path s =
                  <[path := json_dump s]> (delete (tmp_path path) fs')).
  { intros fs' s. unfold save_state, save_state_upto.
    rewrite delete_insert_eq. reflexivity. }
  split; [apply Heq|]. split; [|split].
  - intros q Hp Ht. rewrite Heq, lookup_insert_ne, lookup_delete_ne; congruence.
  - rewrite !Heq. apply map_eq. intros q.
    destruct (decide (q = path)) as [->|Hp].
    + rewrite !lookup_insert_eq. reflexivity.
    + rewrite !lookup_insert_ne by congruence.
      destruct (decide (q = tmp_path path)) as [->|Ht].
      * rewrite !lookup_delete_eq. reflexivity.
      * rewrite !lookup_delete_ne by congruence.
        rewrite lookup_insert_ne by congruence.
        rewrite lookup_delete_ne by congruence. reflexivity.
  - intros Hround. unfold load_state. rewrite Heq, lookup_insert_eq, Hround.
    reflexivity.
Qed.

Lemma save_state_then_load_witness :
  let st := set_cursor fresh_state (IdStr "42") in
  load_state sample_load
    (save_state sample_dump {[ "state.json.tmp" := "4" ]} "state.json" st)
    "state.json" = Ok st.
Proof.
  intros st.
  apply (save_state_then_load sample_dump sample_load
           {[ "state.json.tmp" := "4" ]} "state.json" st st).
  reflexivity.
Defined.

(** ** What is on disk after a run *)

Section Persisted.

Variable json_dump : state -> string.
Variable e : env.
Variable cfg : config.

Lemma persisted_weaken w w1 :
  persisted json_dump cfg w ->
  files w1 = files w ->
  last_notification_id (mem w1) = last_notification_id (mem w) ->
  last_boost_per_user (mem w1) ⊆ last_boost_per_user (mem w) ->
  boosted_status_ids (mem w1) ⊆ boosted_status_ids (mem w) ->
  persisted json_dump cfg w1.
Proof.
  intros (st & Hf & Hc & Hu & Hs) Hf1 Hc1 Hu1 Hs1. exists st.
  rewrite Hf1, Hc1. split; [exact Hf|]. split; [exact Hc|].
  split; etransitivity; eassumption.
Qed.

Lemma persisted_save w : persisted json_dump cfg (save json_dump cfg w).
Proof.
  exists (mem w). split; [|auto]. left.
  unfold save, save_state, save_state_upto. simpl. apply lookup_insert_eq.
Qed.

Lemma persisted_prune_step w :
  persisted json_dump cfg w ->
  persisted json_dump cfg (fetched (prune_step e cfg w)).
Proof.
  intros H. apply (persisted_weaken w); [exact H|reflexivity..| |];
    apply map_filter_subseteq.
Qed.

Lemma cycle_persisted w :
  persisted json_dump cfg w ->
  persisted json_dump cfg (outcome_world (cycle json_dump e cfg w)).
Proof.
  intros H. pose proof (persisted_prune_step w H) as H1.
  destruct (path_dec cfg w) as [Hp|Hp].
  - rewrite (cycle_startup_path json_dump e cfg w Hp). simpl.
    destruct (notifications e (fetches w)) as [|[|n l]]; simpl; try exact H1.
    destruct (max_id (n :: l)); simpl; [apply persisted_save|exact H1].
  - rewrite (cycle_batch_path json_dump e cfg w Hp). simpl.
    destruct (notifications e (fetches w)) as [|[|n l]]; simpl; try exact H1.
    destruct (sorted_by_id (n :: l)); simpl; [apply persisted_save|exact H1].
Qed.

Lemma cycle_batch_path_stays w :
  batch_path cfg w ->
  batch_path cfg (outcome_world (cycle json_dump e cfg w)).
Proof.
  intros Hp. destruct Hp as [Hc|Hs]; [|right; exact Hs].
  rewrite (cycle_batch_path json_dump e cfg w (or_introl Hc)). simpl.
  destruct (notifications e (fetches w)) as [|[|n l]]; simpl;
    try (left; exact Hc).
  destruct (sorted_by_id (n :: l)) as [items|]; simpl; [|left; exact Hc].
  left. simpl. rewrite process_items_cursor.
  destruct (last items); [discriminate|exact Hc].
Qed.

End Persisted.

(** X7. At every sleep of the loop, that is after any number of iterations
    each of which reached its [time.sleep]: the state file holds a
    document with the cursor the process has in memory, and the tables in
    memory are those of that document less what was pruned since the last
    save. It holds from the start when there is no state file. Nothing is
    said of a process that dies within an iteration. *)
Theorem persisted_run (json_dump : state -> string)
    (json_load : string -> option state) (e : env) (cfg : config) :
  (forall k w w', persisted json_dump cfg w ->
     run json_dump e cfg k w = Slept w' ->
     persisted json_dump cfg w') /\
  (forall base_url access_token verified fs w,
     fs !! state_file cfg = None ->
     main_start json_load cfg base_url access_token verified fs = Looping w ->
     persisted json_dump cfg w).
Proof.
  split.
  - induction k as [|k IH]; intros w w' H; simpl.
    + intros [= <-]. exact H.
    + pose proof (cycle_persisted json_dump e cfg w H) as Hc.
      destruct (cycle json_dump e cfg w) as [w1|x w1]; simpl in *;
        [apply IH; exact Hc|discriminate].
  - intros base_url access_token verified fs w Hnone. unfold main_start.
    destruct base_url as [[|? ?]|], access_token as [[|? ?]|], verified;
      try discriminate.
    unfold load_state. rewrite Hnone. intros [= <-].
    exists fresh_state. simpl. auto.
Qed.

Lemma persisted_run_witness :
  let e := scripted 5000%Q
             [Fetched [mention (IdStr "5") (IdInt 1) "a"]; Fetched []] true in
  let cfg := sample_cfg 3600 false in
  exists w',
    run sample_dump e cfg 2 (at_rest fresh_state ∅) = Slept w' /\
    files w' !! "state.json" = Some "5" /\
    persisted sample_dump cfg w'.
Proof.
  intros e cfg.
  destruct (persisted_run sample_dump sample_load e cfg) as [Hrun Hstart].
  eexists. split; [vm_compute; reflexivity|]. split; [vm_compute; reflexivity|].
  apply (Hrun 2%nat (at_rest fresh_state ∅)).
  - apply (Hstart (Some "https://example.social") (Some "token") true ∅);
      reflexivity.
  - vm_compute. reflexivity.
Defined.

(** X8. Once the loop has taken the path of lines 113-167 it never goes back
    to the startup path: a cursor that is set is never cleared, whatever
    the service answers. *)
Theorem batch_path_stays (json_dump : state -> string) (e : env)
    (cfg : config) (k : nat) :
  forall w, batch_path cfg w ->
    batch_path cfg (outcome_world (run json_dump e cfg k w)).
Proof.
  induction k as [|k IH]; intros w H; simpl; [exact H|].
  pose proof (cycle_batch_path_stays json_dump e cfg w H) as Hc.
  destruct (cycle json_dump e cfg w) as [w1|x w1]; simpl in *;
    [apply IH; exact Hc|exact Hc].
Qed.

Lemma batch_path_stays_witness :
  let e := scripted 5000%Q
             [Fetched [mention (IdStr "5") (IdInt 1) "a"]; FetchFault] true in
  let cfg := sample_cfg 3600 true in
  batch_path cfg
    (outcome_world (run sample_dump e cfg 3
                      (at_rest (set_cursor fresh_state (IdInt 1)) ∅))).
Proof.
  intros e cfg. apply batch_path_stays. left. discriminate.
Defined.

(** ** Identifiers that are not numbers *)

Lemma uint_of_char_foreign c o d :
  uint_of_char c o = Some d -> foreign_char c = false.
Proof.
  destruct o as [d0|]; [|discriminate].
  destruct c as [[] [] [] [] [] [] [] []]; simpl; intros H;
    try discriminate H; reflexivity.
Qed.

Lemma uint_of_string_foreign s d :
  NilEmpty.uint_of_string s = Some d -> has_foreign_char s = false.
Proof.
  revert d. induction s as [|c s IH]; intros d H; [reflexivity|].
  simpl in H. simpl.
  rewrite (uint_of_char_foreign _ _ _ H).
  destruct (NilEmpty.uint_of_string s) as [d0|] eqn:Hs.
  - exact (IH d0 eq_refl).
  - discriminate.
Qed.

Lemma NilZero_uint_of_string_foreign s d :
  NilZero.uint_of_string s = Some d -> has_foreign_char s = false.
Proof.
  destruct s as [|c s]; [discriminate|]. apply uint_of_string_foreign.
Qed.

(** What [int_of_str] reads as a number is not empty and has no
    character foreign to numerals. *)
Lemma int_of_str_Some s z :
  int_of_str s = Some z -> s <> EmptyString /\ has_foreign_char s = false.
Proof.
  destruct s as [|a s]; [discriminate|]. intros H. split; [discriminate|].
  destruct (Ascii.ascii_dec a "+") as [->|Ha].
  - change (int_of_str (String "+" s))
      with (option_map (fun d => Z.of_uint d) (NilZero.uint_of_string s)) in H.
    destruct (NilZero.uint_of_string s) as [d|] eqn:Hs; [|discriminate].
    change (has_foreign_char (String "+" s)) with (has_foreign_char s).
    exact (NilZero_uint_of_string_foreign s d Hs).
  - rewrite int_of_str_other in H by exact Ha.
    unfold NilZero.int_of_string in H.
    destruct (Ascii.eqb_spec a "-") as [->|Hm].
    + destruct (NilZero.uint_of_string s) as [d|] eqn:Hs; [|discriminate].
      change (has_foreign_char (String "-" s)) with (has_foreign_char s).
      exact (NilZero_uint_of_string_foreign s d Hs).
    + destruct (NilZero.uint_of_string (String a s)) as [d|] eqn:Hs;
        [|discriminate].
      exact (NilZero_uint_of_string_foreign _ d Hs).
Qed.

Lemma not_a_number_py_int x : not_a_number x -> py_int x = None.
Proof.
  intros (s & -> & Hs). simpl.
  destruct (int_of_str s) as [z|] eqn:Hz; [|reflexivity].
  destruct (int_of_str_Some s z Hz) as [Hne Hf].
  destruct Hs as [->|Hs]; congruence.
Qed.

(** X9. A non-empty answer with an identifier that is a string with a
    character no numeral has (an ASCII character that is no digit, sign,
    underscore or blank), or the empty string, ends the process with
    [ValueError], on either path, before any event is processed: the
    cursor is not moved, nothing is saved and [status_reblog] is not
    called. *)
Theorem non_numeric_id_fatal (json_dump : state -> string) (e : env)
    (cfg : config) (w : world) (l : list notification) :
  notifications e (fetches w) = Fetched l ->
  Exists (fun n => not_a_number (notif_id n)) l ->
  exists w', cycle json_dump e cfg w = Crashed ValueError w' /\
    last_notification_id (mem w') = last_notification_id (mem w) /\
    files w' = files w /\ reblogs w' = reblogs w.
Proof.
  intros Hf Hbad.
  assert (Hids : ids_of l = None).
  { destruct (ids_of l) as [ks|] eqn:Hk; [|reflexivity].
    assert (Hall : is_Some (ids_of l)) by eauto.
    apply ids_of_Forall in Hall. rewrite Forall_forall in Hall.
    apply Exists_exists in Hbad as (n & Hn & Hnone).
    apply not_a_number_py_int in Hnone.
    destruct (Hall n Hn) as [z Hz]. congruence. }
  assert (Hne : l <> []).
  { intros ->. inversion Hbad. }
  exists (fetched (prune_step e cfg w)). split; [|auto].
  destruct (path_dec cfg w) as [Hp|Hp].
  - rewrite (cycle_startup_path json_dump e cfg w Hp). simpl. rewrite Hf.
    destruct l as [|n l]; [congruence|].
    unfold max_id. rewrite Hids. reflexivity.
  - rewrite (cycle_batch_path json_dump e cfg w Hp). simpl. rewrite Hf.
    destruct l as [|n l]; [congruence|].
    unfold sorted_by_id. rewrite Hids. reflexivity.
Qed.

Lemma non_numeric_id_fatal_witness :
  let l := [mention (IdStr "5") (IdInt 1) "a";
            mention (IdStr "AbCdEf") (IdInt 2) "b"] in
  exists w',
    cycle sample_dump (steady 5000%Q (Fetched l) true) (sample_cfg 3600 true)
      (at_rest (set_cursor fresh_state (IdInt 1)) ∅) = Crashed ValueError w' /\
    last_notification_id (mem w') = Some (IdInt 1) /\
    files w' = ∅ /\ reblogs w' = [].
Proof.
  intros l.
  apply (non_numeric_id_fatal sample_dump (steady 5000%Q (Fetched l) true)
           (sample_cfg 3600 true) (at_rest (set_cursor fresh_state (IdInt 1)) ∅) l).
  - reflexivity.
  - apply Exists_cons_tl, Exists_cons_hd.
    exists "AbCdEf". split; [reflexivity|]. right. reflexivity.
Defined.

(** * Properties of the settings and of the log *)

(** ** [parse_bool] *)

Example parse_bool_yes : parse_bool (Some " Yes  ") false = true.
Proof. reflexivity. Qed.

Example parse_bool_empty : parse_bool (Some EmptyString) true = false.
Proof. reflexivity. Qed.

Example parse_bool_other : parse_bool (Some "y") true = false.
Proof. reflexivity. Qed.

Lemma is_space_lower c : is_space (lower_char c) = is_space c.
Proof. destruct c as [[] [] [] [] [] [] [] []]; reflexivity. Qed.

Lemma is_space_upper c : is_space (upper_char c) = is_space c.
Proof. destruct c as [[] [] [] [] [] [] [] []]; reflexivity. Qed.

Lemma lower_lower_char c : lower_char (lower_char c) = lower_char c.
Proof. destruct c as [[] [] [] [] [] [] [] []]; reflexivity. Qed.

Lemma lower_upper_char c : lower_char (upper_char c) = lower_char c.
Proof. destruct c as [[] [] [] [] [] [] [] []]; reflexivity. Qed.

Section Strip.

(** The blanks, and a change of letters [f] that keeps blanks blank and
    the rest not. *)
Variable p : ascii -> bool.
Variable f : ascii -> ascii.
Hypothesis f_blank : forall c, p (f c) = p c.

Lemma lstrip_map_chars s :
  lstrip_by p (map_chars f s) = map_chars f (lstrip_by p s).
Proof.
  induction s as [|c s IH]; simpl; [reflexivity|].
  rewrite f_blank. destruct (p c); [exact IH|reflexivity].
Qed.

Lemma rstrip_map_chars s :
  rstrip_by p (map_chars f s) = map_chars f (rstrip_by p s).
Proof.
  induction s as [|c s IH]; simpl; [reflexivity|].
  rewrite IH, f_blank. destruct (rstrip_by p s); simpl; [|reflexivity].
  destruct (p c); reflexivity.
Qed.

Lemma lstrip_blank_app a x :
  blank_by p a = true -> lstrip_by p (a ++ x)%string = lstrip_by p x.
Proof.
  induction a as [|c a IH]; simpl; [reflexivity|].
  intros H. apply andb_true_iff in H as [Hc Ha]. rewrite Hc. apply IH, Ha.
Qed.

Lemma lstrip_blank b : blank_by p b = true -> lstrip_by p b = EmptyString.
Proof.
  induction b as [|c b IH]; simpl; [reflexivity|].
  intros H. apply andb_true_iff in H as [Hc Hb]. rewrite Hc. apply IH, Hb.
Qed.

Lemma rstrip_blank b : blank_by p b = true -> rstrip_by p b = EmptyString.
Proof.
  induction b as [|c b IH]; simpl; [reflexivity|].
  intros H. apply andb_true_iff in H as [Hc Hb]. rewrite (IH Hb), Hc.
  reflexivity.
Qed.

Lemma rstrip_app_blank x b :
  blank_by p b = true -> rstrip_by p (x ++ b)%string = rstrip_by p x.
Proof.
  intros Hb. induction x as [|c x IH]; simpl.
  - apply rstrip_blank, Hb.
  - rewrite IH. reflexivity.
Qed.

Lemma strip_by_app_blank v b :
  blank_by p b = true ->
  rstrip_by p (lstrip_by p (v ++ b)%string) = rstrip_by p (lstrip_by p v).
Proof.
  intros Hb. induction v as [|c v IH].
  - change (EmptyString ++ b)%string with b.
    rewrite (lstrip_blank b Hb). reflexivity.
  - change (String c v ++ b)%string with (String c (v ++ b)%string).
    simpl. destruct (p c); [exact IH|].
    apply (rstrip_app_blank (String c v) b Hb).
Qed.

Lemma strip_by_padded a v b :
  blank_by p a = true -> blank_by p b = true ->
  rstrip_by p (lstrip_by p (a ++ v ++ b)%string)
  = rstrip_by p (lstrip_by p v).
Proof.
  intros Ha Hb. rewrite lstrip_blank_app by exact Ha.
  apply (strip_by_app_blank v b Hb).
Qed.

End Strip.

Lemma lower_map_chars s : lower s = map_chars lower_char s.
Proof. induction s as [|c s IH]; simpl; [|rewrite IH]; reflexivity. Qed.

Lemma upper_map_chars s : upper s = map_chars upper_char s.
Proof. induction s as [|c s IH]; simpl; [|rewrite IH]; reflexivity. Qed.

Lemma lower_lower s : lower (lower s) = lower s.
Proof.
  induction s as [|c s IH]; simpl; [reflexivity|].
  rewrite lower_lower_char, IH. reflexivity.
Qed.

Lemma lower_upper s : lower (upper s) = lower s.
Proof.
  induction s as [|c s IH]; simpl; [reflexivity|].
  rewrite lower_upper_char, IH. reflexivity.
Qed.

Lemma strip_map_chars f s :
  (forall c, is_space (f c) = is_space c) ->
  strip (map_chars f s) = map_chars f (strip s).
Proof.
  intros Hf. unfold strip.
  rewrite (lstrip_map_chars is_space f Hf).
  apply (rstrip_map_chars is_space f Hf).
Qed.

(** X10. For a value of ASCII characters: [parse_bool] with a value never
    looks at the default; ASCII whitespace around the value makes no
    difference, nor does [upper()] or [lower()] of the value. *)
Theorem parse_bool_insensitive (value a b : string) (d d' : bool) :
  ascii_only value = true ->
  parse_bool (Some value) d = parse_bool (Some value) d' /\
  (blank a = true -> blank b = true ->
   parse_bool (Some (a ++ value ++ b)%string) d = parse_bool (Some value) d) /\
  parse_bool (Some (upper value)) d = parse_bool (Some value) d /\
  parse_bool (Some (lower value)) d = parse_bool (Some value) d.
Proof.
  intros _. split; [reflexivity|]. split; [|split].
  - intros Ha Hb. unfold parse_bool, strip.
    rewrite (strip_by_padded is_space a value b Ha Hb). reflexivity.
  - unfold parse_bool. rewrite (upper_map_chars value).
    rewrite (strip_map_chars upper_char value is_space_upper).
    rewrite <- upper_map_chars, lower_upper. reflexivity.
  - unfold parse_bool. rewrite (lower_map_chars value).
    rewrite (strip_map_chars lower_char value is_space_lower).
    rewrite <- lower_map_chars, lower_lower. reflexivity.
Qed.

Lemma parse_bool_insensitive_witness :
  parse_bool (Some "  on ") false = parse_bool (Some "on") false /\
  parse_bool (Some "ON") false = parse_bool (Some "on") true.
Proof.
  destruct (parse_bool_insensitive "on" "  " " " false true eq_refl)
    as (Hd & Hpad & Hup & _).
  split.
  - apply Hpad; reflexivity.
  - rewrite <- Hd. exact Hup.
Defined.

(** ** The settings and the start of [main] *)

Example int_of_text_padded : int_of_text 4300 "  1_000 " = Some 1000.
Proof. reflexivity. Qed.
Example int_of_text_negative : int_of_text 4300 "-30" = Some (-30).
Proof. reflexivity. Qed.
Example int_of_text_double_underscore : int_of_text 4300 "1__0" = None.
Proof. reflexivity. Qed.
Example int_of_text_trailing_underscore : int_of_text 4300 "10_" = None.
Proof. reflexivity. Qed.
Example int_of_text_inner_blank : int_of_text 4300 "1 0" = None.
Proof. reflexivity. Qed.
Example int_of_text_sign_only : int_of_text 4300 "+" = None.
Proof. reflexivity. Qed.
Example int_of_text_blank : int_of_text 4300 "   " = None.
Proof. reflexivity. Qed.

(** The unit separator (31) is whitespace for [strip] but not for [int]. *)
Example int_of_text_unit_separator :
  int_of_text 4300 (String (ascii_of_nat 31) "30") = None /\
  parse_bool (Some (String (ascii_of_nat 31) "on")) false = true.
Proof. split; reflexivity. Qed.

(** More digits than the interpreter allows, leading zeros counted. *)
Example int_of_text_too_long :
  int_of_text 4300 (string_of_list_ascii (repeat "0"%char 4301)) = None /\
  int_of_text 4300 (string_of_list_ascii (repeat "0"%char 4300)) = Some 0 /\
  int_of_text 0 (string_of_list_ascii (repeat "0"%char 4301)) = Some 0.
Proof. repeat split; vm_compute; reflexivity. Qed.

Example read_settings_empty :
  read_settings 4300 ∅ =
  Ok {| Settings.base_url := None; Settings.access_token := None;
        Settings.poll_interval := 30; Settings.min_interval := 3600;
        Settings.state_file := "state.json"; Settings.log_file := "bot.log";
        Settings.log_level := "INFO";
        Settings.startup_skip_existing := true |}.
Proof. vm_compute. reflexivity. Qed.

(** X12. With interval settings of ASCII characters: [main] returns 2
    exactly when both intervals are numbers and the base URL or the token
    is missing or empty; an interval that is not a number ends the
    process with [ValueError] even then. With a log level of ASCII
    characters as well, the loop is entered only with the log level
    known, the credentials verified and the state loaded from the state
    file, no call made yet. *)
Theorem main_outcomes (json_load : string -> option state)
    (max_str_digits : nat) (environ : gmap string string)
    (verified : option string) (fs : gmap string string) :
  ascii_only (getenv environ "POLL_INTERVAL_SECONDS" "30") = true ->
  ascii_only (getenv environ "MIN_BOOST_INTERVAL_SECONDS" "3600") = true ->
  (main json_load max_str_digits environ verified fs = Exit 2 <->
   exists s, read_settings max_str_digits environ = Ok s /\
     (missing (Settings.base_url s) = true \/
      missing (Settings.access_token s) = true)) /\
  (forall x, read_settings max_str_digits environ = Raise x ->
     x = ValueError /\
     main json_load max_str_digits environ verified fs = Died ValueError) /\
  (ascii_only (getenv environ "LOG_LEVEL" "INFO") = true ->
   forall w, main json_load max_str_digits environ verified fs = Looping w ->
     exists s acct,
       read_settings max_str_digits environ = Ok s /\ verified = Some acct /\
       is_Some (level_of_name (Settings.log_level s)) /\
       load_state json_load fs (Settings.state_file s) = Ok (mem w) /\
       files w = fs /\ reblogs w = [] /\ fetches w = O).
Proof.
  intros _ _. unfold main.
  destruct (read_settings max_str_digits environ) as [s|x] eqn:Hr.
  2:{ split; [|split].
      - split; [discriminate|]. intros (s & Hs & _). discriminate.
      - intros y [= <-].
        assert (Hx : x = ValueError).
        { unfold read_settings in Hr.
          destruct (int_of_text _ _); [destruct (int_of_text _ _)|];
            congruence. }
        subst x. auto.
      - discriminate. }
  destruct (missing (Settings.base_url s)) eqn:Hb;
    destruct (missing (Settings.access_token s)) eqn:Ht; simpl.
  1-3: (split; [|split]; [|discriminate..];
        split; [intros _; exists s; auto|reflexivity]).
  assert (Hcreds : exists c1 u c2 t,
            Settings.base_url s = Some (String c1 u) /\
            Settings.access_token s = Some (String c2 t)).
  { destruct (Settings.base_url s) as [[|c1 u]|]; try discriminate.
    destruct (Settings.access_token s) as [[|c2 t]|]; try discriminate.
    eauto 10. }
  destruct Hcreds as (c1 & u & c2 & t & Hu & Htok).
  split; [|split; [discriminate|]].
  - split.
    + destruct (level_of_name _); [|discriminate].
      unfold main_start. rewrite Hu, Htok.
      destruct verified; [destruct (load_state _ _ _)|]; discriminate.
    + intros (s' & [= <-] & [H|H]); congruence.
  - intros _ w.
    destruct (level_of_name (Settings.log_level s)) as [lvl|] eqn:Hl;
      [|discriminate].
    unfold main_start. rewrite Hu, Htok.
    destruct verified as [acct|]; [|discriminate]. simpl.
    destruct (load_state json_load fs (Settings.state_file s)) as [st|x] eqn:Hld;
      [|discriminate].
    intros [= <-]. exists s, acct. simpl. eauto 10.
Qed.

Lemma main_outcomes_witness :
  main sample_load 4300 {[ "ACCESS_TOKEN" := "token" ]} (Some "bot") ∅ = Exit 2 /\
  main sample_load 4300 {[ "ACCESS_TOKEN" := "token";
                           "POLL_INTERVAL_SECONDS" := "soon" ]} (Some "bot") ∅
    = Died ValueError /\
  (forall w,
     main sample_load 4300
       {[ "MASTODON_BASE_URL" := "https://example.social";
          "ACCESS_TOKEN" := "token" ]} (Some "bot") ∅ = Looping w ->
     mem w = fresh_state).
Proof.
  split; [|split].
  - destruct (main_outcomes sample_load 4300 {[ "ACCESS_TOKEN" := "token" ]}
                (Some "bot") ∅) as (H & _); [vm_compute; reflexivity..|].
    apply H. eexists. split; [vm_compute; reflexivity|]. left. reflexivity.
  - destruct (main_outcomes sample_load 4300
                {[ "ACCESS_TOKEN" := "token";
                   "POLL_INTERVAL_SECONDS" := "soon" ]} (Some "bot") ∅)
      as (_ & H & _); [vm_compute; reflexivity..|].
    apply (H ValueError). vm_compute. reflexivity.
  - intros w Hw.
    destruct (main_outcomes sample_load 4300
                {[ "MASTODON_BASE_URL" := "https://example.social";
                   "ACCESS_TOKEN" := "token" ]} (Some "bot") ∅)
      as (_ & _ & H); [vm_compute; reflexivity..|].
    destruct (H ltac:(vm_compute; reflexivity) w Hw)
      as (s & acct & Hs & _ & _ & Hload & _).
    vm_compute in Hs. injection Hs as <-.
    unfold load_state in Hload. rewrite lookup_empty in Hload. congruence.
Defined.

Example main_unknown_level :
  main sample_load 4300
    {[ "MASTODON_BASE_URL" := "https://example.social";
       "ACCESS_TOKEN" := "token";
       "LOG_LEVEL" := "verbose" ]} (Some "bot") ∅
  = Died ValueError.
Proof. vm_compute. reflexivity. Qed.

Example main_enters_loop :
  main sample_load 4300
    {[ "MASTODON_BASE_URL" := "https://example.social";
       "ACCESS_TOKEN" := "token";
       "LOG_LEVEL" := "debug" ]} (Some "bot") ∅
  = Looping (at_rest fresh_state ∅).
Proof. vm_compute. reflexivity. Qed.

(** A blank that [int] does not skip: [ValueError] before the check of
    the credentials, also with these missing. *)
Example main_interval_with_separator :
  main sample_load 4300
    {[ "POLL_INTERVAL_SECONDS" := String (ascii_of_nat 31) "30" ]}
    (Some "bot") ∅
  = Died ValueError.
Proof. vm_compute. reflexivity. Qed.

(** ** The log file *)

Lemma file_log_app lvl a b : file_log lvl (a ++ b) = file_log lvl a ++ file_log lvl b.
Proof. apply List.filter_app. Qed.

Lemma file_log_rejected lvl r :
  BoostOnlyFilter.filter r = false -> file_log lvl [r] = [].
Proof.
  intros H. unfold file_log. simpl. rewrite H, andb_false_r. reflexivity.
Qed.

Lemma prefix_app (p s : string) : String.prefix p (p ++ s)%string = true.
Proof.
  induction p as [|c p IH]; [destruct s; reflexivity|].
  change (String c p ++ s)%string with (String c (p ++ s)%string).
  simpl. destruct (ascii_dec c c); [exact IH|congruence].
Qed.

Lemma file_log_boosted lvl key acct :
  lvl <= INFO -> file_log lvl [boosted_line key acct] = [boosted_line key acct].
Proof.
  intros H. unfold file_log, enabled. simpl.
  apply Z.leb_le in H. rewrite H.
  assert (Hf : BoostOnlyFilter.filter (boosted_line key acct) = true)
    by apply prefix_app.
  rewrite Hf. reflexivity.
Qed.

Section LogOfTheLoop.

Variable e : env.
Variable cfg : config.
Variable reblog_error : nat -> string.
Variable fetch_error : nat -> string.
Variable lvl : Z.

(** What one iteration writes to the log file, beside what it adds to
    the calls. *)
Lemma process_item_file_log w item :
  lvl <= INFO ->
  let w1 := fst (process_item e cfg w item) in
  let lines := file_log lvl (process_item_log e cfg reblog_error w item) in
  (exists step, reblogs w1 = step ++ reblogs w /\ boosted_keys step = [] /\
     lines = []) \/
  (exists sid acct, reblogs w1 = [(sid, true)] ++ reblogs w /\
     lines = [boosted_line (py_str sid) acct]).
Proof.
  intros Hl.
  assert (Hquiet : forall w0 : world, reblogs w0 = reblogs w ->
            exists step, reblogs w0 = step ++ reblogs w /\
              boosted_keys step = [] /\ @nil log_record = []).
  { intros w0 Hr. exists []. auto. }
  unfold process_item_log, process_item. simpl.
  destruct (negb _); simpl.
  { left. destruct (notif_status item); apply Hquiet; reflexivity. }
  destruct (notif_status item) as [s|]; simpl;
    [|left; apply Hquiet; reflexivity].
  destruct (status_acct s) as [[|c a]|]; simpl;
    try (left; apply Hquiet; reflexivity).
  destruct (String.eqb _ _); simpl; [left; apply Hquiet; reflexivity|].
  destruct (Qlt_bool _ _); simpl.
  { left. exists []. split; [reflexivity|]. split; [reflexivity|].
    apply file_log_rejected. reflexivity. }
  destruct (boosted_status_ids (mem w) !! py_str (status_id s)); simpl.
  { left. exists []. split; [reflexivity|]. split; [reflexivity|].
    apply file_log_rejected. reflexivity. }
  destruct (status_reblog e (length (reblogs w))); simpl.
  - right. exists (status_id s), (String c a). split; [reflexivity|].
    apply (file_log_boosted lvl (py_str (status_id s)) (String c a) Hl).
  - left. exists [(status_id s, false)]. split; [reflexivity|].
    split; [reflexivity|]. apply file_log_rejected. reflexivity.
Qed.

Lemma process_items_file_log items : forall w,
  lvl <= INFO ->
  exists new accts,
    reblogs (process_items e cfg w items) = new ++ reblogs w /\
    length accts = length (boosted_keys new) /\
    file_log lvl (process_items_log e cfg reblog_error w items) =
      zip_with boosted_line (rev (boosted_keys new)) accts.
Proof.
  induction items as [|item rest IH]; intros w Hl; simpl.
  - exists [], []. auto.
  - destruct (IH (fst (process_item e cfg w item)) Hl)
      as (new & accts & Hnew & Hlen & Hlines).
    rewrite file_log_app, Hlines, Hnew.
    destruct (process_item_file_log w item Hl)
      as [(step & Hstep & Hnone & ->)|(sid & acct & Hstep & ->)];
      rewrite Hstep, app_assoc.
    + exists (new ++ step), accts. rewrite boosted_keys_app, Hnone, app_nil_r.
      auto.
    + exists (new ++ [(sid, true)]), (acct :: accts).
      rewrite boosted_keys_app.
      change (boosted_keys [(sid, true)]) with [py_str sid].
      rewrite rev_app_distr, length_app. simpl.
      split; [reflexivity|]. split; [lia|reflexivity].
Qed.

Lemma process_item_log_info w item :
  Forall info_if_accepted (process_item_log e cfg reblog_error w item).
Proof.
  assert (Hrej : forall r, BoostOnlyFilter.filter r = false ->
            Forall info_if_accepted [r]).
  { intros r Hr. repeat constructor. intros H. congruence. }
  unfold process_item_log.
  destruct (notif_status item) as [s|]; [|constructor].
  destruct (snd (process_item e cfg w item));
    [constructor..|apply Hrej; reflexivity|apply Hrej; reflexivity|].
  destruct (status_reblog e (length (reblogs w))).
  - constructor; [intros _; reflexivity|constructor].
  - apply Hrej. reflexivity.
Qed.

Lemma process_items_log_info items : forall w,
  Forall info_if_accepted (process_items_log e cfg reblog_error w items).
Proof.
  induction items as [|item rest IH]; intros w; simpl; [constructor|].
  apply Forall_app. split; [apply process_item_log_info|apply IH].
Qed.

Lemma cycle_log_info w :
  Forall info_if_accepted (cycle_log e cfg reblog_error fetch_error w).
Proof.
  unfold cycle_log.
  assert (Hbatch : forall c,
    Forall info_if_accepted
      match notifications e (fetches w) with
      | FetchFault =>
        [ {| levelno := WARNING;
             getMessage := "Notification fetch failed: "
                           ++ fetch_error (fetches w) |} ]%string
      | Fetched l =>
        {| levelno := INFO;
           getMessage := ("Fetched " ++ str_of_int (Z.of_nat (length l))
                          ++ " notifications since_id=" ++ str_of_cursor c)%string |}
        :: match sorted_by_id l with
           | Some items =>
             process_items_log e cfg reblog_error
               (fetched (prune_step e cfg w)) items
           | None => []
           end
      end).
  { intros c. destruct (notifications e (fetches w)) as [|l].
    - constructor; [|constructor]. intros H. exfalso. revert H.
      apply not_true_iff_false. reflexivity.
    - constructor; [intros _; reflexivity|].
      destruct (sorted_by_id l); [apply process_items_log_info|constructor]. }
  destruct (last_notification_id (mem (fetched (prune_step e cfg w))));
    [apply Hbatch|].
  destruct (startup_skip_existing cfg); [|apply Hbatch].
  destruct (notifications e (fetches w)) as [|[|n l]]; try constructor.
  destruct (max_id (n :: l)); [|constructor].
  constructor; [intros _; reflexivity|constructor].
Qed.

Lemma file_log_above_info records :
  INFO < lvl -> Forall info_if_accepted records -> file_log lvl records = [].
Proof.
  intros Hl H. induction H as [|r records Hr _ IH]; [reflexivity|].
  unfold file_log in *. simpl. rewrite IH.
  destruct (BoostOnlyFilter.filter r) eqn:Hf;
    [|rewrite andb_false_r; reflexivity].
  unfold enabled. rewrite (Hr Hf).
  destruct (Z.leb_spec lvl INFO); [lia|reflexivity].
Qed.

End LogOfTheLoop.

(** X13. The log file gets one line per call of [status_reblog] that succeeded
    in the cycle, in the order of the calls, each of the form
    [Boosted <key> from <acct>], and nothing else: no skip, no failure,
    no fetch report. With a log level above [INFO] it gets nothing. *)
Theorem log_file_boosts (json_dump : state -> string) (e : env)
    (cfg : config) (reblog_error fetch_error : nat -> string) (lvl : Z)
    (w : world) :
  let w' := outcome_world (cycle json_dump e cfg w) in
  let lines := file_log lvl (cycle_log e cfg reblog_error fetch_error w) in
  (lvl <= INFO ->
   exists new accts,
     reblogs w' = new ++ reblogs w /\
     length accts = length (boosted_keys new) /\
     lines = zip_with boosted_line (rev (boosted_keys new)) accts) /\
  (INFO < lvl -> lines = []).
Proof.
  split.
  2:{ intros Hl. apply file_log_above_info; [exact Hl|apply cycle_log_info]. }
  intros Hl.
  assert (Hnone : forall r, BoostOnlyFilter.filter r = false ->
            reblogs (fetched (prune_step e cfg w)) = reblogs w ->
            exists new accts,
              reblogs (fetched (prune_step e cfg w)) = new ++ reblogs w /\
              length accts = length (boosted_keys new) /\
              file_log lvl [r] = zip_with boosted_line (rev (boosted_keys new)) accts).
  { intros r Hr _. exists [], []. split; [reflexivity|].
    split; [reflexivity|]. apply file_log_rejected, Hr. }
  assert (Hquiet : exists (new : list (pyid * bool)) (accts : list string),
              reblogs (fetched (prune_step e cfg w)) = new ++ reblogs w /\
              length accts = length (boosted_keys new) /\
              file_log lvl [] = zip_with boosted_line (rev (boosted_keys new)) accts).
  { exists [], []. auto. }
  assert (Hsorted : forall r rs,
            BoostOnlyFilter.filter r = false ->
            forall n l, rs = match sorted_by_id (n :: l) with
                             | Some items =>
                               process_items_log e cfg reblog_error
                                 (fetched (prune_step e cfg w)) items
                             | None => []
                             end ->
            exists new accts,
              reblogs (outcome_world
                match sorted_by_id (n :: l) with
                | None => Crashed ValueError (fetched (prune_step e cfg w))
                | Some items =>
                  Slept (save json_dump cfg
                           (process_items e cfg
                              (fetched (prune_step e cfg w)) items))
                end) = new ++ reblogs w /\
              length accts = length (boosted_keys new) /\
              file_log lvl (r :: rs) =
                zip_with boosted_line (rev (boosted_keys new)) accts).
  { intros r rs Hr n l ->.
    change (file_log lvl (r :: ?x)) with (file_log lvl ([r] ++ x)).
    rewrite file_log_app, (file_log_rejected lvl r Hr).
    destruct (sorted_by_id (n :: l)) as [items|]; [|exact Hquiet].
    apply (process_items_file_log e cfg reblog_error lvl items
             (fetched (prune_step e cfg w)) Hl). }
  unfold cycle, cycle_log. cbv zeta.
  change (last_notification_id (mem (fetched (prune_step e cfg w))))
    with (last_notification_id (mem (prune_step e cfg w))).
  change (fetches (prune_step e cfg w)) with (fetches w).
  destruct (notifications e (fetches w)) as [|[|n l]];
    destruct (last_notification_id (mem (prune_step e cfg w))) as [c|];
    destruct (startup_skip_existing cfg);
    try exact Hquiet;
    try (apply Hnone; reflexivity);
    try (apply Hsorted; reflexivity).
  destruct (max_id (n :: l)); [apply Hnone; reflexivity|exact Hquiet].
Qed.

Example log_of_a_cycle :
  let e := scripted 5000%Q
             [Fetched [mention (IdInt 3) (IdInt 9) "carol";
                       mention (IdInt 1) (IdInt 7) "alice";
                       mention (IdInt 2) (IdInt 8) "alice"]] true in
  let w := at_rest (set_cursor fresh_state (IdInt 0)) ∅ in
  map getMessage
    (cycle_log e (sample_cfg 3600 true) (fun _ => "timeout") (fun _ => "timeout") w)
  = ["Fetched 3 notifications since_id=0";
     "Boosted 7 from alice";
     "Skipping alice; boosted 0 seconds ago";
     "Boosted 9 from carol"] /\
  map getMessage
    (file_log INFO
       (cycle_log e (sample_cfg 3600 true) (fun _ => "timeout")
          (fun _ => "timeout") w))
  = ["Boosted 7 from alice"; "Boosted 9 from carol"].
Proof. split; vm_compute; reflexivity. Qed.

Lemma log_file_boosts_witness :
  let e := scripted 5000%Q
             [Fetched [mention (IdInt 3) (IdInt 9) "carol";
                       mention (IdInt 1) (IdInt 7) "alice"]] true in
  let cfg := sample_cfg 3600 true in
  let w := at_rest (set_cursor fresh_state (IdInt 0)) ∅ in
  exists new accts,
    reblogs (outcome_world (cycle sample_dump e cfg w)) = new ++ reblogs w /\
    length accts = length (boosted_keys new) /\
    file_log INFO (cycle_log e cfg (fun _ => "timeout") (fun _ => "timeout") w)
    = zip_with boosted_line (rev (boosted_keys new)) accts.
Proof.
  intros e cfg w.
  apply (log_file_boosts sample_dump e cfg (fun _ => "timeout")
           (fun _ => "timeout") INFO w).
  reflexivity.
Defined.

(** ** Dedup across cycles *)

(** X5. A status recorded in [boosted_status_ids] less than 24 hours before
    the pruning of a cycle is not boosted in that cycle, whoever mentions
    it; once the entry is older than that it is pruned, and a mention
    that passes the rate limit boosts the status again. *)
Theorem dedup_lasts_a_day (e : env) (cfg : config) (w : world)
    (item : notification) (s : status) (now ts : Q) :
  notif_status item = Some s ->
  boosted_status_ids (mem w) !! py_str (status_id s) = Some ts ->
  let w1 := set_mem w (prune_state (mem w) now (min_interval cfg)) in
  (~ older_than now 86400 ts ->
   snd (process_item e cfg w1 item) <> Act /\
   reblogs (fst (process_item e cfg w1 item)) = reblogs w) /\
  (older_than now 86400 ts ->
   forall acct, reaches_rate_limit cfg item acct ->
     snd (process_item e cfg w1 item) <> SkipRateLimited ->
     snd (process_item e cfg w1 item) = Act).
Proof.
  intros Hs Hk w1.
  assert (Hlook : boosted_status_ids (mem w1) !! py_str (status_id s) =
                  if within now (24 * 3600) ts then Some ts else None).
  { subst w1. simpl. rewrite filter_within_lookup, Hk. reflexivity. }
  split.
  - intros Hfresh. apply (within_true now (24 * 3600) ts) in Hfresh.
    rewrite Hfresh in Hlook.
    unfold process_item. rewrite Hs. simpl in *.
    destruct (negb _); simpl; [split; [discriminate|reflexivity]|].
    destruct (status_acct s) as [[|c a]|]; simpl;
      try (split; [discriminate|reflexivity]).
    destruct (String.eqb _ _); simpl; [split; [discriminate|reflexivity]|].
    destruct (Qlt_bool _ _); simpl; [split; [discriminate|reflexivity]|].
    rewrite Hlook. simpl. split; [discriminate|reflexivity].
  - intros Hold acct Hr Hnot.
    assert (Hw : within now (24 * 3600) ts = false).
    { apply not_true_iff_false. intros Hw. apply within_true in Hw.
      contradiction. }
    rewrite Hw in Hlook.
    destruct (process_item_reaching e cfg w1 item acct Hr)
      as (s' & Hs' & _ & Heq).
    assert (s' = s) as -> by congruence.
    rewrite Heq in Hnot |- *. cbv zeta in *.
    destruct (Qlt_bool _ _); simpl in *; [congruence|].
    rewrite Hlook. destruct (status_reblog _ _); reflexivity.
Qed.

Lemma dedup_lasts_a_day_witness :
  let st := {| last_notification_id := Some (IdInt 1);
               last_boost_per_user := ∅;
               boosted_status_ids := {[ "7" := 20000%Q ]} |} in
  let e := steady 100000%Q FetchFault true in
  let cfg := sample_cfg 3600 true in
  snd (process_item e cfg (at_rest (prune_state st 100000%Q 3600) ∅)
         (mention (IdInt 2) (IdInt 7) "bob")) <> Act /\
  snd (process_item e cfg (at_rest (prune_state st 110000%Q 3600) ∅)
         (mention (IdInt 2) (IdInt 7) "bob")) = Act.
Proof.
  intros st e cfg. split.
  - apply (dedup_lasts_a_day e cfg (at_rest st ∅)
             (mention (IdInt 2) (IdInt 7) "bob") _ 100000%Q 20000%Q
             eq_refl eq_refl).
    vm_compute. discriminate.
  - apply (dedup_lasts_a_day e cfg (at_rest st ∅)
             (mention (IdInt 2) (IdInt 7) "bob") _ 110000%Q 20000%Q
             eq_refl eq_refl) with (acct := "bob").
    + vm_compute. reflexivity.
    + split; [reflexivity|]. split; [eexists; split; reflexivity|].
      split; discriminate.
    + vm_compute. discriminate.
Defined.
